(** * Patient Access co-pilot: the two server variants, embedded and verified

    The repository holds two versions of one Express server:
    - the [mjs] variant ([server.mjs], ES modules), and
    - the [js] variant ([server.js], CommonJS).

    Each registers [GET /health] and [POST /api/patient-access/analyze].
    The analyze handler validates the body, renders two prompts, calls the
    chat-completion client once, and parses the answer as JSON.

    The embedding is shallow: JavaScript values are an inductive type, the
    handlers are functions in a small monad that records the effects (the
    outbound call, [console.error]) and carries a thrown value. *)

From Stdlib Require Import String Ascii List ZArith Bool Lia DecimalString.
Import ListNotations.

Local Open Scope list_scope.
Local Open Scope string_scope.

(** ** Strings *)

Definition nl : string := String "010"%char EmptyString.
Definition dq : string := String "034"%char EmptyString.

(** [quoted s] is [s] between two double-quote characters. *)
Definition quoted (s : string) : string := dq ++ s ++ dq.

(** [s] has [sub] as a contiguous part. *)
Definition contains (s sub : string) : Prop :=
  exists pre post, s = pre ++ sub ++ post.

(** [String.prototype.includes], as a boolean test. *)
Fixpoint includes (s sub : string) : bool :=
  String.prefix sub s ||
  match s with
  | EmptyString => false
  | String _ s' => includes s' sub
  end.

(** ** JavaScript values *)

(** A number is kept as the decimal literal [mantissa * 10 ^ exponent] that
    denotes it; the engine rounds the literal to the nearest double. The
    handlers never compute with numbers: they test them for truthiness and
    interpolate them into strings. *)
Record JsNumber : Type := mkNumber { mantissa : Z; exponent : Z }.

Definition Number_of_Z (z : Z) : JsNumber := mkNumber z 0.

(** The values the handlers see: [undefined], and the values of JSON.
    An object is the list of its data properties in insertion order. *)
#[local] Set Warnings "-register-all".
Inductive JsVal : Type :=
| JUndefined
| JNull
| JBool (b : bool)
| JNum (n : JsNumber)
| JStr (s : string)
| JArr (elems : list JsVal)
| JObj (props : list (string * JsVal)).

(** The literal rounds to zero iff its magnitude is at most [2 ^ -1075],
    half the least subnormal double (a tie rounds to the even neighbour, 0). *)
Definition Number_is_zero (n : JsNumber) : bool :=
  (mantissa n =? 0)%Z ||
  ((exponent n <? 0)%Z &&
   (Z.abs (mantissa n) * 2 ^ 1075 <=? 10 ^ (- exponent n))%Z).

(** [ToBoolean]: what [!v], [a || b] and [if (v)] test. *)
Definition truthy (v : JsVal) : bool :=
  match v with
  | JUndefined | JNull => false
  | JBool b => b
  | JNum n => negb (Number_is_zero n)
  | JStr EmptyString => false
  | JStr (String _ _) => true
  | JArr _ | JObj _ => true
  end.

(** [a || b] on values. *)
Definition js_or (a b : JsVal) : JsVal := if truthy a then a else b.

Definition nullish (v : JsVal) : bool :=
  match v with
  | JUndefined | JNull => true
  | _ => false
  end.

(** Own data property of an object; a later duplicate never occurs in a
    parsed object, so the first entry is the property. *)
Fixpoint lookup (key : string) (props : list (string * JsVal)) : option JsVal :=
  match props with
  | [] => None
  | (k, v) :: rest => if String.eqb k key then Some v else lookup key rest
  end.

(** Canonical array index written as a property key: ["0"], ["1"], ...,
    ["10"], ... (no sign, no leading zero). *)
Definition digit_of_ascii (c : ascii) : option nat :=
  let n := nat_of_ascii c in
  if (48 <=? n)%nat && (n <=? 57)%nat then Some (n - 48)%nat else None.

Fixpoint digits_value (s : string) (acc : nat) : option nat :=
  match s with
  | EmptyString => Some acc
  | String c s' =>
      match digit_of_ascii c with
      | Some d => digits_value s' (10 * acc + d)%nat
      | None => None
      end
  end.

Definition index_of_key (key : string) : option nat :=
  match key with
  | EmptyString => None
  | String "0"%char EmptyString => Some 0%nat
  | String "0"%char _ => None
  | _ => digits_value key 0
  end.

(** [v[key]] for a value that is neither [undefined] nor [null]. The
    property names the handlers read ([callType], [choices], [0],
    [message], ...) are not defined on any built-in prototype, so a
    primitive or an array answers [undefined] for them. A string is
    indexable by position. *)
Definition prop (v : JsVal) (key : string) : JsVal :=
  match v with
  | JObj props =>
      match lookup key props with
      | Some x => x
      | None => JUndefined
      end
  | JArr elems =>
      if String.eqb key "length" then JNum (Number_of_Z (Z.of_nat (length elems)))
      else match index_of_key key with
           | Some i => nth i elems JUndefined
           | None => JUndefined
           end
  | JStr s =>
      if String.eqb key "length" then JNum (Number_of_Z (Z.of_nat (String.length s)))
      else match index_of_key key with
           | Some i =>
               match String.get i s with
               | Some c => JStr (String c EmptyString)
               | None => JUndefined
               end
           | None => JUndefined
           end
  | _ => JUndefined
  end.

(** [v?.key]: [undefined] when [v] is [undefined] or [null]. *)
Definition opt_prop (v : JsVal) (key : string) : JsVal :=
  if nullish v then JUndefined else prop v key.

(** ** The engine's built-ins

    Two built-ins of the JavaScript engine are taken as given:
    [Number::toString] on the double a literal denotes, and the grammar
    [JSON.parse] accepts ([None] stands for the [SyntaxError] it throws). *)
Class Engine : Type := {
  Number_toString : JsNumber -> string;
  JSON_parse_text : string -> option JsVal
}.

Section Language.

Context {engine : Engine}.

(** [ToString], as a template literal and [JSON.parse] apply it to their
    operand. [None] is the [TypeError] of [OrdinaryToPrimitive]: an object
    whose own [toString] property shadows [Object.prototype.toString] with a
    value that is not callable (no value of [JsVal] is) has no primitive
    value. An array is joined with commas, [undefined] and [null] elements
    as empty strings. *)
Fixpoint ToString (v : JsVal) : option string :=
  match v with
  | JUndefined => Some "undefined"
  | JNull => Some "null"
  | JBool true => Some "true"
  | JBool false => Some "false"
  | JNum n => Some (Number_toString n)
  | JStr s => Some s
  | JArr elems =>
      (fix join (l : list JsVal) : option string :=
         match l with
         | [] => Some EmptyString
         | x :: rest =>
             match (if nullish x then Some EmptyString else ToString x) with
             | None => None
             | Some sx =>
                 match rest with
                 | [] => Some sx
                 | _ :: _ =>
                     match join rest with
                     | Some sr => Some (sx ++ "," ++ sr)
                     | None => None
                     end
                 end
             end
         end) elems
  | JObj props =>
      match lookup "toString" props with
      | Some _ => None
      | None => Some "[object Object]"
      end
  end.

(** [JSON.parse(v)]: the operand is converted with [ToString], then parsed.
    [None] when either step throws. *)
Definition JSON_parse (v : JsVal) : option JsVal :=
  match ToString v with
  | Some text => JSON_parse_text text
  | None => None
  end.

(** A template literal: literal chunks and substitutions, in order. *)
Inductive Part : Type :=
| Lit (s : string)
| Sub (v : JsVal).

Fixpoint template (parts : list Part) : option string :=
  match parts with
  | [] => Some EmptyString
  | Lit s :: rest =>
      match template rest with
      | Some r => Some (s ++ r)
      | None => None
      end
  | Sub v :: rest =>
      match ToString v, template rest with
      | Some s, Some r => Some (s ++ r)
      | _, _ => None
      end
  end.

End Language.

(** ** The outbound call and the response *)

Record Message : Type := mkMessage { role : string; content : string }.

(** The argument of [client.chat.completions.create]. *)
Record CreateParams : Type := mkCreateParams {
  model : string;
  temperature : JsNumber;
  response_format : JsVal;
  messages : list Message
}.

(** How the awaited call ends: the promise resolves with a completion, or
    it rejects (or the call throws) with some value. *)
Inductive CallResult : Type :=
| Resolved (completion : JsVal)
| Rejected (reason : JsVal).

(** The client, seen from one request: what each call would end with. *)
Definition Client : Type := CreateParams -> CallResult.

(** What a handler does besides answering. *)
Inductive Event : Type :=
| EvCreate (params : CreateParams)
| EvConsoleError (args : list JsVal).

(** [res.status(status).json(body)]; [res.json(body)] leaves the status at
    200. *)
Record Response : Type := mkResponse { status : Z; body : JsVal }.

Definition res_json (b : JsVal) : Response := mkResponse 200 b.
Definition res_status_json (st : Z) (b : JsVal) : Response := mkResponse st b.

(** ** The effect monad

    A computation ends normally with a value or abruptly with a thrown
    value, and leaves the list of its effects in order. *)
Inductive Completion (A : Type) : Type :=
| Normal (a : A)
| Thrown (e : JsVal).

Arguments Normal {A} a.
Arguments Thrown {A} e.

Definition M (A : Type) : Type := (Completion A * list Event)%type.

Definition ret {A} (a : A) : M A := (Normal a, []).

Definition throw {A} (e : JsVal) : M A := (Thrown e, []).

Definition bind {A B} (m : M A) (f : A -> M B) : M B :=
  match m with
  | (Normal a, t) => let (r, t') := f a in (r, (t ++ t')%list)
  | (Thrown e, t) => (Thrown e, t)
  end.

(** [try { m } catch (e) { handler e }]. *)
Definition try_catch {A} (m : M A) (handler : JsVal -> M A) : M A :=
  match m with
  | (Normal a, t) => (Normal a, t)
  | (Thrown e, t) => let (r, t') := handler e in (r, (t ++ t')%list)
  end.

Definition emit (ev : Event) : M unit := (Normal tt, [ev]).

Declare Scope js_scope.
Delimit Scope js_scope with js.
Notation "x <- m ;; k" := (bind m (fun x => k))
  (at level 61, m at next level, right associativity) : js_scope.
Notation "m ;; k" := (bind m (fun _ => k))
  (at level 61, right associativity) : js_scope.

Definition outcome {A} (m : M A) : Completion A := fst m.
Definition trace {A} (m : M A) : list Event := snd m.

(** The outbound calls among the effects. *)
Fixpoint calls (t : list Event) : list CreateParams :=
  match t with
  | [] => []
  | EvCreate p :: rest => p :: calls rest
  | EvConsoleError _ :: rest => calls rest
  end.

(** [m] with the effects [t] before its own. *)
Definition after {A} (t : list Event) (m : M A) : M A :=
  (fst m, (t ++ snd m)%list).

(** A computation that makes no outbound call. *)
Definition quiet {A} (m : M A) : Prop := calls (trace m) = [].

(** ** Errors the engine throws *)

Definition TypeError (msg : string) : JsVal :=
  JObj [("name", JStr "TypeError"); ("message", JStr msg)].

Definition not_primitive : JsVal :=
  TypeError "Cannot convert object to primitive value".

Definition cannot_read (v : JsVal) (key : string) : JsVal :=
  TypeError ("Cannot read properties of "
             ++ match v with JNull => "null" | _ => "undefined" end
             ++ " (reading '" ++ key ++ "')").

(** [v.key]: throws on [undefined] and [null]. *)
Definition member (v : JsVal) (key : string) : M JsVal :=
  if nullish v then throw (cannot_read v key) else ret (prop v key).

(** Evaluating a template literal: throws where [ToString] does. *)
Definition eval_template {engine : Engine} (parts : list Part) : M string :=
  match template parts with
  | Some s => ret s
  | None => throw not_primitive
  end.

(** [await client.chat.completions.create(params)]. *)
Definition create (client : Client) (params : CreateParams) : M JsVal :=
  (match client params with
   | Resolved completion => Normal completion
   | Rejected reason => Thrown reason
   end, [EvCreate params]).

Definition console_error (args : list JsVal) : M unit :=
  emit (EvConsoleError args).

(** ** Process environment and requests *)

Record Env : Type := mkEnv {
  env_OPENAI_API_KEY : option string;
  env_TEXT_MODEL : option string;
  env_PORT : option string
}.

(** [process.env.X || fallback]: an unset or empty variable gives the
    fallback. *)
Definition env_or (x : option string) (fallback : string) : string :=
  match x with
  | Some (String c rest) => String c rest
  | _ => fallback
  end.

(** The [console.warn] at start-up when [process.env.OPENAI_API_KEY] is
    unset or empty; [command] is how the file says to start the server. *)
Definition startup_warnings (env : Env) (command : string) : list string :=
  match env_OPENAI_API_KEY env with
  | Some (String _ _) => []
  | _ => [ "WARNING: OPENAI_API_KEY is not set. Start the server with:" ++ nl
           ++ "OPENAI_API_KEY=" ++ quoted "sk-..." ++ " " ++ command ]
  end.

Record Request : Type := mkRequest {
  req_method : string;
  req_path : string;
  req_body : JsVal
}.

(** [new OpenAI({ apiKey })]: the constructor of the [openai] package,
    given [process.env.OPENAI_API_KEY] ([None] when it is unset). It
    returns the client or throws. *)
Definition Constructor : Type := option string -> Completion Client.

(** The constructor as the package has it since version 4: without a key
    it throws its [OpenAIError], [error] here; with one it builds the
    client. *)
Definition OpenAI_sdk (error : JsVal) (client : Client) : Constructor :=
  fun apiKey =>
    match apiKey with
    | None => Thrown error
    | Some _ => Normal client
    end.

(** How Express matches the path of a route registered with its default
    settings: letters compare without case, and one trailing slash is
    allowed. *)
Definition lower_ascii (c : ascii) : ascii :=
  let n := nat_of_ascii c in
  if (65 <=? n)%nat && (n <=? 90)%nat then ascii_of_nat (n + 32) else c.

Fixpoint lower (s : string) : string :=
  match s with
  | EmptyString => EmptyString
  | String c rest => String (lower_ascii c) (lower rest)
  end.

Definition route_matches (route path : string) : bool :=
  String.eqb (lower path) (lower route)
  || String.eqb (lower path) (lower route ++ "/").

(** ** The prompts *)

(** A template literal without substitutions whose text starts on the line
    after the opening backtick and ends with a line break. *)
Definition text_block (lines : list string) : string :=
  nl ++ String.concat nl lines ++ nl.

(** The opening of the system prompt, the same in both variants: role, people supported, call types. *)
Definition role_lines : list string :=
  [ "You are an AI co-pilot for Stanford Health Care's Patient Access Center";
    "serving the Redwood City and Newark locations.";
    EmptyString;
    "You support:";
    "- Silvia (Sr. Manager, Patient Access & Provider Relations)";
    "- Chona (Radiology Scheduling, complex radiology w/ pre-auth)";
    "- Karen (Contact Center Management)";
    "- Gayathri (LEAN & process improvement)";
    EmptyString;
    "Core call types:";
    "- New Patient Scheduling (complex)";
    "- Radiology w/ Pre-Auth (complex)";
    "- Provider Referral Coordination (complex)";
    "- Appointment Rescheduling (simple)";
    "- Patient Demographics Update (simple)";
    EmptyString ].

(** [server.mjs]: the LEAN focus as a bullet list, and the demand for one JSON object. *)
Definition focus_mjs_lines : list string :=
  [ "Use LEAN language (MUDA, value stream, 5 Whys, Kaizen) and focus on:";
    "- Days to appointment";
    "- Complex vs simple calls";
    "- Provider satisfaction and referral completion";
    "- Patient experience and " ++ quoted "getting appointments";
    EmptyString;
    "You are NOT allowed to give generic canned responses.";
    "You must tailor your answer to the specific scenario, notes, and goal.";
    EmptyString;
    "You MUST respond as a single VALID JSON object, with this exact shape:";
    EmptyString ].

(** [server.js]: the LEAN focus as a sentence, and the demand for JSON only. *)
Definition focus_js_lines : list string :=
  [ "Use LEAN language (MUDA, value stream, 5 Whys, Kaizen) and focus on";
    "days to appointment, complex vs simple calls, provider satisfaction,";
    "and patient experience.";
    EmptyString;
    "You are NOT allowed to give generic canned responses.";
    "You must tailor your answer to the specific scenario, notes, and goal.";
    EmptyString;
    "Always respond with VALID JSON ONLY, no extra commentary, matching exactly:";
    EmptyString ].

(** The JSON template the model is told to fill in, the same in both variants. *)
Definition shape_lines : list string :=
  [ "{";
    "  " ++ quoted "summary" ++ ": " ++ quoted "One paragraph executive summary for Silvia in plain language." ++ ",";
    "  " ++ quoted "riskLevel" ++ ": " ++ quoted "low" ++ " | " ++ quoted "medium" ++ " | " ++ quoted "high" ++ ",";
    "  " ++ quoted "recommendedDisposition" ++ ": " ++ quoted "What the agent should do next (route, schedule, escalate, close loop)." ++ ",";
    "  " ++ quoted "schedulingPlan" ++ ": " ++ quoted "Step-by-step scheduling guidance for the specific scenario." ++ ",";
    "  " ++ quoted "scripts" ++ ": {";
    "    " ++ quoted "opening" ++ ": " ++ quoted "Friendly, professional opening script." ++ ",";
    "    " ++ quoted "probingQuestions" ++ ": [";
    "      " ++ quoted "Question 1" ++ ",";
    "      " ++ quoted "Question 2" ++ ",";
    "      " ++ quoted "Question 3";
    "    ],";
    "    " ++ quoted "expectationSetting" ++ ": " ++ quoted "Exact language to set expectations about next steps and timing." ++ ",";
    "    " ++ quoted "closing" ++ ": " ++ quoted "Strong closing that reassures patient and/or provider.";
    "  },";
    "  " ++ quoted "leanInsights" ++ ": {";
    "    " ++ quoted "mudaTypes" ++ ": [" ++ quoted "overprocessing" ++ ", " ++ quoted "waiting" ++ ", " ++ quoted "rework" ++ "],";
    "    " ++ quoted "rootCause" ++ ": " ++ quoted "Short explanation using 5 Whys logic." ++ ",";
    "    " ++ quoted "quickWins" ++ ": [";
    "      " ++ quoted "Fast improvement idea 1" ++ ",";
    "      " ++ quoted "Fast improvement idea 2";
    "    ],";
    "    " ++ quoted "longerTermFixes" ++ ": [";
    "      " ++ quoted "Bigger structural fix 1" ++ ",";
    "      " ++ quoted "Bigger structural fix 2";
    "    ]";
    "  },";
    "  " ++ quoted "providerImpact" ++ ": " ++ quoted "How this scenario affects provider satisfaction & referral completion." ++ ",";
    "  " ++ quoted "metricsImpact" ++ ": {";
    "    " ++ quoted "daysToAppointment" ++ ": {";
    "      " ++ quoted "current" ++ ": 4.1,";
    "      " ++ quoted "projected" ++ ": 2.3";
    "    },";
    "    " ++ quoted "fcrImpact" ++ ": " ++ quoted "Describe impact on First Call Resolution in words." ++ ",";
    "    " ++ quoted "hcahpsImpact" ++ ": " ++ quoted "Describe impact on 'getting appointments' in words.";
    "  }";
    "}" ].

Definition default_persona : string := "General Stanford Patient Access leader".
Definition default_goal : string :=
  "Optimize access and experience while protecting resources.".

Definition return_only_lines : list string :=
  [ "Return ONLY the JSON object, no backticks, no markdown, no extra text.";
    "If data is missing, make reasonable assumptions consistent with Stanford";
    "Patient Access operations and LEAN methodology." ].

(** The user prompt, the same template literal in both files. *)
Definition userPrompt_parts (callType persona goal notes : JsVal) : list Part :=
  [ Lit (nl ++ "CALL TYPE: "); Sub callType;
    Lit (nl ++ "PERSONA (primary audience for explanation): ");
    Sub (js_or persona (JStr default_persona));
    Lit (nl ++ "GOAL: "); Sub (js_or goal (JStr default_goal));
    Lit (nl ++ nl ++ "CALL / SCENARIO NOTES:" ++ nl); Sub notes;
    Lit (nl ++ text_block return_only_lines) ].

Definition validation_failure : Response :=
  res_status_json 400
    (JObj [("success", JBool false);
           ("error", JStr "callType and notes are required.")]).

Definition health_ok : Response := res_json (JObj [("status", JStr "ok")]).

(** [completion.choices?.[0]?.message?.content || "{}"]. *)
Definition raw_content (completion : JsVal) : M JsVal :=
  (choices <- member completion "choices" ;;
   ret (js_or (opt_prop (opt_prop (opt_prop choices "0") "message") "content")
              (JStr "{}")))%js.

Definition create_params (text_model systemPrompt userPrompt : string)
  : CreateParams :=
  {| model := text_model;
     temperature := mkNumber 2 (-1);
     response_format := JObj [("type", JStr "json_object")];
     messages := [ mkMessage "system" systemPrompt;
                   mkMessage "user" userPrompt ] |}.

Local Open Scope js_scope.

(** ** [server.mjs] *)

Module Mjs.
Section Server.

Context {engine : Engine}.
Variable env : Env.
Variable client : Client.

(** [process.env.PORT || 4000], as the text that is logged. *)
Definition PORT : string := env_or (env_PORT env) "4000".

Definition startup : list string := startup_warnings env "npm start".

Definition TEXT_MODEL : string := env_or (env_TEXT_MODEL env) "gpt-4o-mini".

Definition systemPrompt : string :=
  text_block (role_lines ++ focus_mjs_lines ++ shape_lines)%list.

Definition userPrompt (callType persona goal notes : JsVal) : M string :=
  eval_template (userPrompt_parts callType persona goal notes).

(** [app.get("/health", ...)]. *)
Definition health : M Response := ret health_ok.

(** The [catch (error)] block of the handler. *)
Definition on_error (error : JsVal) : M Response :=
  console_error [JStr "OpenAI error (full):"; error] ;;
  let status :=
    js_or (opt_prop error "status") (opt_prop (opt_prop error "response") "status") in
  message <-
    (let provider :=
       opt_prop (opt_prop (opt_prop (opt_prop error "response") "data") "error")
                "message" in
     if truthy provider then ret provider else
     let nested := opt_prop (opt_prop error "error") "message" in
     if truthy nested then ret nested else
     generic <- member error "message" ;;
     ret (js_or generic (JStr "Failed to generate analysis."))) ;;
  console_error [JStr "OpenAI error status:"; status] ;;
  console_error [JStr "OpenAI error message:"; message] ;;
  text <- eval_template [ Lit "OpenAI error ("; Sub (js_or status (JStr "unknown"));
                          Lit "): "; Sub message ] ;;
  ret (res_status_json 500 (JObj [("success", JBool false); ("error", JStr text)])).

(** [app.post("/api/patient-access/analyze", ...)]. *)
Definition analyze (body : JsVal) : M Response :=
  let b := js_or body (JObj []) in
  let callType := prop b "callType" in
  let persona := prop b "persona" in
  let notes := prop b "notes" in
  let goal := prop b "goal" in
  if negb (truthy callType) || negb (truthy notes) then ret validation_failure
  else
    try_catch
      (prompt <- userPrompt callType persona goal notes ;;
       completion <- create client (create_params TEXT_MODEL systemPrompt prompt) ;;
       raw <- raw_content completion ;;
       match JSON_parse raw with
       | None =>
           console_error [JStr "JSON parse error, raw output:"; raw] ;;
           ret (res_status_json 500
                  (JObj [("success", JBool false);
                         ("error", JStr "Model output was not valid JSON.")]))
       | Some parsed =>
           ret (res_json (JObj [("success", JBool true); ("analysis", parsed)]))
       end)
      on_error.

(** The two routes, as Express dispatches them. A route registered with
    [app.get] also answers [HEAD] (Express then sends no body). [None]: the
    request is not for a route of this file. *)
Definition routes (req : Request) : option (M Response) :=
  if (String.eqb (req_method req) "GET" || String.eqb (req_method req) "HEAD")
     && route_matches "/health" (req_path req)
  then Some health
  else if String.eqb (req_method req) "POST"
          && route_matches "/api/patient-access/analyze" (req_path req)
  then Some (analyze (req_body req))
  else None.

End Server.

(** The module from its first line to [app.listen]: the client is built
    before any route is registered, so when [new OpenAI] throws the
    process ends without a server; otherwise the server answers with
    [routes] over the client just built. *)
Definition app {engine : Engine} (OpenAI : Constructor) (env : Env)
  : Completion (Request -> option (M Response)) :=
  match OpenAI (env_OPENAI_API_KEY env) with
  | Normal client => Normal (routes env client)
  | Thrown error => Thrown error
  end.

End Mjs.

(** ** [server.js] *)

Module Js.
Section Server.

Context {engine : Engine}.
Variable env : Env.
Variable client : Client.

(** [process.env.PORT || 4000], as the text that is logged. *)
Definition PORT : string := env_or (env_PORT env) "4000".

Definition startup : list string := startup_warnings env "node server.js".

Definition TEXT_MODEL : string := env_or (env_TEXT_MODEL env) "gpt-4.1-mini".

Definition systemPrompt : string :=
  text_block (role_lines ++ focus_js_lines ++ shape_lines)%list.

Definition userPrompt (callType persona goal notes : JsVal) : M string :=
  eval_template (userPrompt_parts callType persona goal notes).

(** [app.get("/health", ...)]. *)
Definition health : M Response := ret health_ok.

(** The [catch (error)] block of the handler. *)
Definition on_error (error : JsVal) : M Response :=
  message <- member error "message" ;;
  name <- member error "name" ;;
  status <- member error "status" ;;
  response <- member error "response" ;;
  console_error [JStr "OpenAI error:";
                 JObj [("message", message); ("name", name); ("status", status);
                       ("data", opt_prop response "data")]] ;;
  response <- member error "response" ;;
  let provider := opt_prop (opt_prop (opt_prop response "data") "error") "message" in
  text <-
    (if truthy provider then ret provider else
     generic <- member error "message" ;;
     ret (js_or generic (JStr "Failed to generate analysis."))) ;;
  ret (res_status_json 500 (JObj [("success", JBool false); ("error", text)])).

(** [app.post("/api/patient-access/analyze", ...)]. *)
Definition analyze (body : JsVal) : M Response :=
  let b := js_or body (JObj []) in
  let callType := prop b "callType" in
  let persona := prop b "persona" in
  let notes := prop b "notes" in
  let goal := prop b "goal" in
  if negb (truthy callType) || negb (truthy notes) then ret validation_failure
  else
    try_catch
      (prompt <- userPrompt callType persona goal notes ;;
       completion <- create client (create_params TEXT_MODEL systemPrompt prompt) ;;
       raw <- raw_content completion ;;
       parsed <-
         match JSON_parse raw with
         | Some parsed => ret parsed
         | None =>
             console_error [JStr "Failed to parse JSON from OpenAI. Raw content:"; raw] ;;
             ret (JObj [("summary", JStr "Model returned non-JSON output from OpenAI.");
                        ("raw", raw)])
         end ;;
       ret (res_json (JObj [("success", JBool true); ("analysis", parsed)])))
      on_error.

(** The two routes, as Express dispatches them. A route registered with
    [app.get] also answers [HEAD] (Express then sends no body). [None]: the
    request is not for a route of this file. *)
Definition routes (req : Request) : option (M Response) :=
  if (String.eqb (req_method req) "GET" || String.eqb (req_method req) "HEAD")
     && route_matches "/health" (req_path req)
  then Some health
  else if String.eqb (req_method req) "POST"
          && route_matches "/api/patient-access/analyze" (req_path req)
  then Some (analyze (req_body req))
  else None.

End Server.

(** The module from its first line to [app.listen]: the client is built
    before any route is registered, so when [new OpenAI] throws the
    process ends without a server; otherwise the server answers with
    [routes] over the client just built. *)
Definition app {engine : Engine} (OpenAI : Constructor) (env : Env)
  : Completion (Request -> option (M Response)) :=
  match OpenAI (env_OPENAI_API_KEY env) with
  | Normal client => Normal (routes env client)
  | Thrown error => Thrown error
  end.

End Js.

(** ** A reference engine

    An executable instance of the two built-ins, for running the
    handlers on concrete requests. *)

Module Reference.

Local Open Scope Z_scope.

Definition digits (z : Z) : string :=
  NilEmpty.string_of_uint (N.to_uint (Z.to_N z)).

Definition zeros (n : Z) : string :=
  String.concat EmptyString (repeat "0"%string (Z.to_nat n)).

(** Drops the trailing decimal zeros of a non-zero mantissa. *)
Fixpoint strip_zeros (fuel : nat) (m e : Z) : Z * Z :=
  match fuel with
  | O => (m, e)
  | S fuel' =>
      if m mod 10 =? 0 then strip_zeros fuel' (m / 10) (e + 1) else (m, e)
  end.

(** [Number::toString] in radix 10 applied to the digits of the literal.
    It is the engine's answer whenever the literal is the shortest
    decimal that rounds to its double, as every literal of at most 15
    significant digits in the range of the normal doubles is. *)
Definition Number_toString (x : JsNumber) : string :=
  if Number_is_zero x then "0"%string else
  let (m, e) := strip_zeros (Z.to_nat (Z.log2 (Z.abs (mantissa x))))
                            (Z.abs (mantissa x)) (exponent x) in
  let ds := digits m in
  let k := Z.of_nat (String.length ds) in
  let n := k + e in
  let sign := if mantissa x <? 0 then "-"%string else EmptyString in
  let text :=
    if (k <=? n) && (n <=? 21) then (ds ++ zeros (n - k))%string
    else if (0 <? n) && (n <=? 21) then
      (substring 0 (Z.to_nat n) ds ++ "."
       ++ substring (Z.to_nat n) (Z.to_nat (k - n)) ds)%string
    else if (-6 <? n) && (n <=? 0) then ("0." ++ zeros (- n) ++ ds)%string
    else
      let mark := if n - 1 <? 0 then "e-"%string else "e+"%string in
      let exp := (mark ++ digits (Z.abs (n - 1)))%string in
      if k =? 1 then (ds ++ exp)%string
      else (substring 0 1 ds ++ "." ++ substring 1 (Z.to_nat (k - 1)) ds ++ exp)%string
  in (sign ++ text)%string.

(** *** [JSON.parse] *)

Definition is_ws (c : ascii) : bool :=
  match nat_of_ascii c with
  | 32%nat | 9%nat | 10%nat | 13%nat => true
  | _ => false
  end.

Fixpoint skip_ws (s : string) : string :=
  match s with
  | String c rest => if is_ws c then skip_ws rest else s
  | EmptyString => s
  end.

Definition hex_value (c : ascii) : option Z :=
  let n := Z.of_nat (nat_of_ascii c) in
  if (48 <=? n) && (n <=? 57) then Some (n - 48)
  else if (65 <=? n) && (n <=? 70) then Some (n - 55)
  else if (97 <=? n) && (n <=? 102) then Some (n - 87)
  else None.

Definition byte (z : Z) : string :=
  String (ascii_of_nat (Z.to_nat z)) EmptyString.

(** A code point in UTF-8, the encoding the strings of this model are in. *)
Definition utf8 (cp : Z) : string :=
  if cp <? 128 then byte cp
  else if cp <? 2048 then (byte (192 + cp / 64) ++ byte (128 + cp mod 64))%string
  else if cp <? 65536 then
    (byte (224 + cp / 4096) ++ byte (128 + (cp / 64) mod 64)
     ++ byte (128 + cp mod 64))%string
  else
    (byte (240 + cp / 262144) ++ byte (128 + (cp / 4096) mod 64)
     ++ byte (128 + (cp / 64) mod 64) ++ byte (128 + cp mod 64))%string.

(** Four hexadecimal digits after a [\u]. *)
Definition hex4 (s : string) : option (Z * string) :=
  match s with
  | String a (String b (String c (String d rest))) =>
      match hex_value a, hex_value b, hex_value c, hex_value d with
      | Some x, Some y, Some z, Some w => Some (((x * 16 + y) * 16 + z) * 16 + w, rest)
      | _, _, _, _ => None
      end
  | _ => None
  end.

(** The characters of a string literal after its opening quote, up to and
    including the closing quote. A high surrogate followed by an escaped
    low surrogate is one code point. *)
Fixpoint parse_chars (fuel : nat) (s acc : string) : option (string * string) :=
  match fuel with
  | O => None
  | S fuel' =>
      match s with
      | EmptyString => None
      | String c rest =>
          let n := nat_of_ascii c in
          if (n =? 34)%nat then Some (acc, rest)
          else if (n <? 32)%nat then None
          else if (n =? 92)%nat then
            match rest with
            | String e rest' =>
                let simple (b : Z) := parse_chars fuel' rest' (acc ++ byte b) in
                match nat_of_ascii e with
                | 34%nat => simple 34
                | 92%nat => simple 92
                | 47%nat => simple 47
                | 98%nat => simple 8
                | 102%nat => simple 12
                | 110%nat => simple 10
                | 114%nat => simple 13
                | 116%nat => simple 9
                | 117%nat =>
                    match hex4 rest' with
                    | Some (hi, after) =>
                        let single := parse_chars fuel' after (acc ++ utf8 hi) in
                        if (55296 <=? hi) && (hi <=? 56319) then
                          match after with
                          | String b (String u after') =>
                              if ((nat_of_ascii b =? 92) && (nat_of_ascii u =? 117))%nat then
                                match hex4 after' with
                                | Some (lo, after'') =>
                                    if (56320 <=? lo) && (lo <=? 57343) then
                                      parse_chars fuel' after''
                                        (acc ++ utf8 (65536 + (hi - 55296) * 1024
                                                      + (lo - 56320)))
                                    else single
                                | None => None
                                end
                              else single
                          | _ => single
                          end
                        else single
                    | None => None
                    end
                | _ => None
                end
            | EmptyString => None
            end
          else parse_chars fuel' rest (acc ++ String c EmptyString)
      end
  end.

Definition parse_string (s : string) : option (string * string) :=
  parse_chars (String.length s) s EmptyString.

Fixpoint take_digits (s : string) : string * string :=
  match s with
  | String c rest =>
      match digit_of_ascii c with
      | Some _ => let (ds, rest') := take_digits rest in (String c ds, rest')
      | None => (EmptyString, s)
      end
  | EmptyString => (EmptyString, s)
  end.

Fixpoint digits_Z (s : string) (acc : Z) : Z :=
  match s with
  | String c rest =>
      match digit_of_ascii c with
      | Some d => digits_Z rest (10 * acc + Z.of_nat d)
      | None => acc
      end
  | EmptyString => acc
  end.

Definition is_char (n : nat) (c : ascii) : bool := (nat_of_ascii c =? n)%nat.

(** A number literal: [-]? int frac? exp?. *)
Definition parse_number (s : string) : option (JsNumber * string) :=
  let (negative, s1) :=
    match s with
    | String c rest => if is_char 45 c then (true, rest) else (false, s)
    | EmptyString => (false, s)
    end in
  let int_part :=
    match s1 with
    | String c rest =>
        if is_char 48 c then Some ("0"%string, rest)
        else match digit_of_ascii c with
             | Some _ => Some (take_digits s1)
             | None => None
             end
    | EmptyString => None
    end in
  match int_part with
  | None => None
  | Some (ints, s2) =>
      let frac_part :=
        match s2 with
        | String c rest =>
            if is_char 46 c then
              match take_digits rest with
              | (EmptyString, _) => None
              | (fs, rest') => Some (fs, rest')
              end
            else Some (EmptyString, s2)
        | EmptyString => Some (EmptyString, s2)
        end in
      match frac_part with
      | None => None
      | Some (fracs, s3) =>
          let exp_part :=
            match s3 with
            | String c rest =>
                if is_char 101 c || is_char 69 c then
                  let (minus, rest1) :=
                    match rest with
                    | String sg rest' =>
                        if is_char 45 sg then (true, rest')
                        else if is_char 43 sg then (false, rest')
                        else (false, rest)
                    | EmptyString => (false, rest)
                    end in
                  match take_digits rest1 with
                  | (EmptyString, _) => None
                  | (es, rest2) =>
                      Some (if minus then - digits_Z es 0 else digits_Z es 0, rest2)
                  end
                else Some (0, s3)
            | EmptyString => Some (0, s3)
            end in
          match exp_part with
          | None => None
          | Some (ex, s4) =>
              let m := digits_Z (ints ++ fracs) 0 in
              Some (mkNumber (if negative then - m else m)
                             (ex - Z.of_nat (String.length fracs)), s4)
          end
      end
  end.

(** [CreateDataProperty]: a repeated key overwrites the earlier value. *)
Fixpoint set_prop (key : string) (v : JsVal) (props : list (string * JsVal))
  : list (string * JsVal) :=
  match props with
  | [] => [(key, v)]
  | (k, old) :: rest =>
      if String.eqb k key then (k, v) :: rest else (k, old) :: set_prop key v rest
  end.

Definition literal (word : string) (v : JsVal) (s : string) : option (JsVal * string) :=
  if String.prefix word s
  then Some (v, substring (String.length word) (String.length s - String.length word) s)
  else None.

(** One JSON value at the head of [s], and what follows it. Every call
    spends fuel; twice the length of the text is enough. *)
Fixpoint parse_value (fuel : nat) (s : string) : option (JsVal * string) :=
  match fuel with
  | O => None
  | S fuel' =>
      match skip_ws s with
      | EmptyString => None
      | String c rest as s' =>
          if is_char 123 c then
            match skip_ws rest with
            | String c' rest' =>
                if is_char 125 c' then Some (JObj [], rest')
                else parse_members fuel' (String c' rest') []
            | EmptyString => None
            end
          else if is_char 91 c then
            match skip_ws rest with
            | String c' rest' =>
                if is_char 93 c' then Some (JArr [], rest')
                else parse_elements fuel' (String c' rest') []
            | EmptyString => None
            end
          else if is_char 34 c then
            match parse_string rest with
            | Some (str, after) => Some (JStr str, after)
            | None => None
            end
          else if is_char 116 c then literal "true" (JBool true) s'
          else if is_char 102 c then literal "false" (JBool false) s'
          else if is_char 110 c then literal "null" JNull s'
          else
            match parse_number s' with
            | Some (n, after) => Some (JNum n, after)
            | None => None
            end
      end
  end

with parse_elements (fuel : nat) (s : string) (acc : list JsVal)
  : option (JsVal * string) :=
  match fuel with
  | O => None
  | S fuel' =>
      match parse_value fuel' s with
      | Some (v, after) =>
          match skip_ws after with
          | String c rest =>
              if is_char 44 c then parse_elements fuel' rest (acc ++ [v])%list
              else if is_char 93 c then Some (JArr (acc ++ [v])%list, rest)
              else None
          | EmptyString => None
          end
      | None => None
      end
  end

with parse_members (fuel : nat) (s : string) (acc : list (string * JsVal))
  : option (JsVal * string) :=
  match fuel with
  | O => None
  | S fuel' =>
      match skip_ws s with
      | String q rest =>
          if is_char 34 q then
            match parse_string rest with
            | Some (key, after) =>
                match skip_ws after with
                | String colon after' =>
                    if is_char 58 colon then
                      match parse_value fuel' after' with
                      | Some (v, after'') =>
                          match skip_ws after'' with
                          | String c rest' =>
                              if is_char 44 c
                              then parse_members fuel' rest' (set_prop key v acc)
                              else if is_char 125 c
                              then Some (JObj (set_prop key v acc), rest')
                              else None
                          | EmptyString => None
                          end
                      | None => None
                      end
                    else None
                | EmptyString => None
                end
            | None => None
            end
          else None
      | EmptyString => None
      end
  end.

(** [JSON.parse] on a text: one value, white space around it, nothing
    else. *)
Definition JSON_parse_text (text : string) : option JsVal :=
  match parse_value (2 * String.length text + 2) text with
  | Some (v, after) =>
      match skip_ws after with
      | EmptyString => Some v
      | String _ _ => None
      end
  | None => None
  end.

Definition engine : Engine := Build_Engine Number_toString JSON_parse_text.

End Reference.

(** ** Vocabulary of the statements *)

(** A field of the request, read as the handlers read it: from
    [req.body || {}]. *)
Definition request_field (body : JsVal) (key : string) : JsVal :=
  prop (js_or body (JObj [])) key.

(** The request passes the validation of the handlers. *)
Definition validated (body : JsVal) : bool :=
  truthy (request_field body "callType") && truthy (request_field body "notes").

(** The user prompt of a request; [None] when rendering it throws. *)
Definition composed {engine : Engine} (body : JsVal) : option string :=
  template (userPrompt_parts (request_field body "callType")
                             (request_field body "persona")
                             (request_field body "goal")
                             (request_field body "notes")).

Definition is_text (v : JsVal) : bool :=
  match v with
  | JStr _ => true
  | _ => false
  end.

Definition optional_text (v : JsVal) : bool :=
  match v with
  | JStr _ | JUndefined | JNull => true
  | _ => false
  end.

(** The body has the types of the data model: [callType] and [notes] are
    strings, [persona] and [goal] are strings when present. *)
Definition AnalysisRequest (body : JsVal) : bool :=
  is_text (request_field body "callType")
  && is_text (request_field body "notes")
  && optional_text (request_field body "persona")
  && optional_text (request_field body "goal").


(** The user prompt written out for string fields. *)
Definition user_text (callType persona goal notes : string) : string :=
  (nl ++ "CALL TYPE: ") ++ callType
  ++ (nl ++ "PERSONA (primary audience for explanation): ") ++ persona
  ++ (nl ++ "GOAL: ") ++ goal
  ++ (nl ++ nl ++ "CALL / SCENARIO NOTES:" ++ nl) ++ notes
  ++ (nl ++ text_block return_only_lines).

(** [completion.choices?.[0]?.message?.content] for a completion that is
    not [undefined] or [null], and the text that is parsed. *)
Definition first_content (completion : JsVal) : JsVal :=
  opt_prop (opt_prop (opt_prop (prop completion "choices") "0") "message") "content".

Definition raw_of (completion : JsVal) : JsVal :=
  js_or (first_content completion) (JStr "{}").

(** [error?.status || error?.response?.status]. *)
Definition upstream_status (error : JsVal) : JsVal :=
  js_or (opt_prop error "status") (opt_prop (opt_prop error "response") "status").

(** The message the provider sent in the body of its answer. *)
Definition provider_message (error : JsVal) : JsVal :=
  opt_prop (opt_prop (opt_prop (opt_prop error "response") "data") "error") "message".

(** The message each variant settles on, for a thrown value that is not
    [undefined] or [null]. *)
Definition message_mjs (error : JsVal) : JsVal :=
  js_or (provider_message error)
    (js_or (opt_prop (opt_prop error "error") "message")
       (js_or (prop error "message") (JStr "Failed to generate analysis."))).

Definition message_js (error : JsVal) : JsVal :=
  js_or (provider_message error)
    (js_or (prop error "message") (JStr "Failed to generate analysis.")).

Definition failure (error : JsVal) : JsVal :=
  JObj [("success", JBool false); ("error", error)].

Definition success (analysis : JsVal) : JsVal :=
  JObj [("success", JBool true); ("analysis", analysis)].

(** The argument of the one outbound call of each variant, for a rendered
    user prompt. *)
Definition mjs_params (env : Env) (prompt : string) : CreateParams :=
  create_params (Mjs.TEXT_MODEL env) Mjs.systemPrompt prompt.

Definition js_params (env : Env) (prompt : string) : CreateParams :=
  create_params (Js.TEXT_MODEL env) Js.systemPrompt prompt.

(** *** Concrete requests and stubs *)

Definition env0 : Env := mkEnv None None None.

Definition body0 : JsVal :=
  JObj [("callType", JStr "Radiology w/ Pre-Auth");
        ("notes", JStr "Patient called twice about a pending MRI authorization.")].

Definition completion_of (text : JsVal) : JsVal :=
  JObj [("choices", JArr [JObj [("message", JObj [("role", JStr "assistant");
                                                  ("content", text)])]])].

Definition resolves (completion : JsVal) : Client := fun _ => Resolved completion.
Definition rejects (reason : JsVal) : Client := fun _ => Rejected reason.

Definition rate_limited : JsVal :=
  JObj [("status", JNum (Number_of_Z 429)); ("message", JStr "rate limited")].

(** A request with a persona and an empty goal. *)
Definition body1 : JsVal :=
  JObj [("callType", JStr "New Patient Scheduling");
        ("persona", JStr "Silvia");
        ("notes", JStr "Referral received; first slot is in 19 days.");
        ("goal", JStr EmptyString)].

(** The fields of [body0] in another order, with one more property. *)
Definition body0_annotated : JsVal :=
  JObj [("requestId", JNum (Number_of_Z 17));
        ("notes", JStr "Patient called twice about a pending MRI authorization.");
        ("callType", JStr "Radiology w/ Pre-Auth")].

(** A completion whose content is a small JSON object. *)
Definition completion_low_risk : JsVal :=
  completion_of
    (JStr ("{" ++ quoted "summary" ++ ":" ++ quoted "x" ++ ","
           ++ quoted "riskLevel" ++ ":" ++ quoted "low" ++ "}")).

(** The value has no string form: it is an object with an own [toString]
    property, or an array that holds such a value in an element that is
    neither [undefined] nor [null]. *)
Fixpoint shadowed (v : JsVal) : bool :=
  match v with
  | JArr elems =>
      (fix any (l : list JsVal) : bool :=
         match l with
         | [] => false
         | x :: rest => (negb (nullish x) && shadowed x) || any rest
         end) elems
  | JObj props =>
      match lookup "toString" props with
      | Some _ => true
      | None => false
      end
  | _ => false
  end.

(** One of the four fields of the request has no string form. *)
Definition unrenderable (body : JsVal) : bool :=
  shadowed (request_field body "callType")
  || shadowed (request_field body "persona")
  || shadowed (request_field body "goal")
  || shadowed (request_field body "notes").

(** *** Vocabulary of the further properties *)

(** The [error] string [server.mjs] answers a thrown value with; [None]
    when its catch block itself throws: the value is [undefined] or
    [null], or its status or message has no string form. *)
Definition mjs_error_text {engine : Engine} (error : JsVal) : option string :=
  if nullish error then None
  else
    match ToString (js_or (upstream_status error) (JStr "unknown")),
          ToString (message_mjs error) with
    | Some st, Some msg => Some ("OpenAI error (" ++ st ++ "): " ++ msg)
    | _, _ => None
    end.

Definition is_object (v : JsVal) : bool :=
  match v with
  | JObj _ => true
  | _ => false
  end.

(** What every answer of the analyze route looks like: 200 with
    [{ success: true, analysis }], or 400 or 500 with
    [{ success: false, error }] where [error] is truthy. *)
Definition well_formed (r : Response) : Prop :=
  (status r = 200%Z /\ exists analysis, body r = success analysis)
  \/ ((status r = 400%Z \/ status r = 500%Z)
      /\ exists error, body r = failure error /\ truthy error = true).

(** The object [server.js] logs in its catch block. *)
Definition js_logged (error : JsVal) : JsVal :=
  JObj [("message", prop error "message"); ("name", prop error "name");
        ("status", prop error "status");
        ("data", opt_prop (prop error "response") "data")].

(** The analysis [server.js] makes up for a text that is not JSON. *)
Definition js_fallback (raw : JsVal) : JsVal :=
  JObj [("summary", JStr "Model returned non-JSON output from OpenAI.");
        ("raw", raw)].

(** Neither an array nor an object. *)
Definition is_primitive (v : JsVal) : bool :=
  match v with
  | JArr _ | JObj _ => false
  | _ => true
  end.

(** A valid request whose fields are not strings. *)
Definition body_numeric : JsVal :=
  JObj [("callType", JNum (Number_of_Z 42)); ("notes", JBool true);
        ("persona", JNull)].

(** A request that passes validation and whose [callType] has no string
    form. *)
Definition body_shadowed : JsVal :=
  JObj [("callType", JObj [("toString", JNum (Number_of_Z 1))]);
        ("notes", JStr "x")].

(** A thrown value whose message has no string form. *)
Definition reason_shadowed : JsVal :=
  JObj [("message", JObj [("toString", JNull)])].

(** ** Lemmas on strings *)

Lemma append_assoc (a b c : string) : (a ++ b) ++ c = a ++ (b ++ c).
Proof. induction a as [|x a IH]; simpl; [reflexivity | now rewrite IH]. Qed.

Lemma append_empty_r (a : string) : a ++ EmptyString = a.
Proof. induction a as [|x a IH]; simpl; [reflexivity | now rewrite IH]. Qed.


Lemma contains_append_r (a b sub : string) :
  contains b sub -> contains (a ++ b) sub.
Proof.
  intros (pre & post & ->). exists (a ++ pre), post.
  now rewrite !append_assoc.
Qed.

Lemma contains_refl (s : string) : contains s s.
Proof. exists EmptyString, EmptyString. simpl. now rewrite append_empty_r. Qed.

Lemma prefix_append (p s : string) :
  String.prefix p s = true <-> exists post, s = p ++ post.
Proof.
  revert s. induction p as [|c p IH]; intros [|d s]; simpl.
  - split; [intros _; now exists EmptyString | reflexivity].
  - split; [intros _; now exists (String d s) | reflexivity].
  - split; [discriminate | intros (post & E); discriminate].
  - destruct (ascii_dec c d) as [->|N].
    + rewrite IH. split; intros (post & E); exists post; [now rewrite E | now inversion E].
    + split; [discriminate | intros (post & E); congruence].
Qed.

(** [includes] decides [contains]. *)
Lemma includes_contains (s sub : string) :
  includes s sub = true <-> contains s sub.
Proof.
  induction s as [|c s IH].
  - destruct sub as [|d sub]; simpl.
    + split; [intros _; apply contains_refl | reflexivity].
    + split; [discriminate | intros (pre & post & E); destruct pre; discriminate].
  - cbn [includes]. rewrite orb_true_iff, IH, prefix_append. split.
    + intros [(post & E) | (pre & post & E)].
      * exists EmptyString, post. exact E.
      * exists (String c pre), post. simpl. now rewrite E.
    + intros (pre & post & E). destruct pre as [|d pre].
      * left. now exists post.
      * right. exists pre, post. simpl in E. now inversion E.
Qed.

(** ** Laws of the effect monad *)

Lemma bind_ret {A B} (a : A) (f : A -> M B) : bind (ret a) f = f a.
Proof. unfold bind, ret. now destruct (f a). Qed.

Lemma bind_throw {A B} (e : JsVal) (f : A -> M B) : bind (throw e) f = throw e.
Proof. reflexivity. Qed.

Lemma bind_emit {B} (ev : Event) (f : unit -> M B) :
  bind (emit ev) f = after [ev] (f tt).
Proof. unfold bind, emit, after. now destruct (f tt). Qed.

Lemma bind_create {B} (client : Client) (p : CreateParams) (f : JsVal -> M B) :
  bind (create client p) f =
  after [EvCreate p]
    match client p with
    | Resolved completion => f completion
    | Rejected reason => throw reason
    end.
Proof.
  unfold bind, create, after. destruct (client p) as [c|e]; [|reflexivity].
  now destruct (f c).
Qed.

Lemma try_catch_ret {A} (a : A) (h : JsVal -> M A) : try_catch (ret a) h = ret a.
Proof. reflexivity. Qed.

Lemma try_catch_throw {A} (e : JsVal) (h : JsVal -> M A) :
  try_catch (throw e) h = h e.
Proof. unfold try_catch, throw. now destruct (h e). Qed.

Lemma try_catch_after {A} (t : list Event) (m : M A) (h : JsVal -> M A) :
  try_catch (after t m) h = after t (try_catch m h).
Proof.
  unfold try_catch, after. destruct m as [[a|e] t']; cbn [fst snd]; [reflexivity|].
  destruct (h e). cbn [fst snd]. now rewrite app_assoc.
Qed.

Lemma bind_after {A B} (t : list Event) (m : M A) (f : A -> M B) :
  bind (after t m) f = after t (bind m f).
Proof.
  unfold bind, after. destruct m as [[a|e] t']; cbn [fst snd]; [|reflexivity].
  destruct (f a). cbn [fst snd]. now rewrite app_assoc.
Qed.

Lemma after_after {A} (t u : list Event) (m : M A) :
  after t (after u m) = after (t ++ u) m.
Proof. unfold after. cbn [fst snd]. now rewrite app_assoc. Qed.

Lemma outcome_after {A} (t : list Event) (m : M A) : outcome (after t m) = outcome m.
Proof. reflexivity. Qed.

Lemma trace_after {A} (t : list Event) (m : M A) :
  trace (after t m) = (t ++ trace m)%list.
Proof. reflexivity. Qed.

Lemma calls_app (t u : list Event) : calls (t ++ u) = (calls t ++ calls u)%list.
Proof.
  induction t as [|[p|args] t IH]; cbn [calls app]; [reflexivity | now rewrite IH | exact IH].
Qed.

(** ** Lemmas on the handlers *)

Section Paths.

Context {engine : Engine}.
Variable env : Env.
Variable client : Client.

Lemma raw_content_defined (completion : JsVal) :
  nullish completion = false ->
  raw_content completion = ret (raw_of completion).
Proof.
  intros H. unfold raw_content, member, raw_of, first_content.
  rewrite H. now rewrite bind_ret.
Qed.

Lemma raw_content_nullish (completion : JsVal) :
  nullish completion = true ->
  raw_content completion = throw (cannot_read completion "choices").
Proof.
  intros H. unfold raw_content, member. rewrite H. reflexivity.
Qed.

(** The validation branch. *)
Lemma mjs_invalid (body : JsVal) :
  validated body = false -> Mjs.analyze env client body = ret validation_failure.
Proof.
  unfold validated, request_field, Mjs.analyze. intros H. cbv zeta.
  rewrite <- negb_andb, H. reflexivity.
Qed.

Lemma js_invalid (body : JsVal) :
  validated body = false -> Js.analyze env client body = ret validation_failure.
Proof.
  unfold validated, request_field, Js.analyze. intros H. cbv zeta.
  rewrite <- negb_andb, H. reflexivity.
Qed.

(** Rendering the prompt throws: the catch block answers, no call is made. *)
Lemma mjs_not_composed (body : JsVal) :
  validated body = true -> composed body = None ->
  Mjs.analyze env client body = Mjs.on_error not_primitive.
Proof.
  unfold validated, composed, request_field, Mjs.analyze, Mjs.userPrompt, eval_template.
  intros V C. cbv zeta. rewrite <- negb_andb, V, C. cbn [negb].
  now rewrite bind_throw, try_catch_throw.
Qed.

Lemma js_not_composed (body : JsVal) :
  validated body = true -> composed body = None ->
  Js.analyze env client body = Js.on_error not_primitive.
Proof.
  unfold validated, composed, request_field, Js.analyze, Js.userPrompt, eval_template.
  intros V C. cbv zeta. rewrite <- negb_andb, V, C. cbn [negb].
  now rewrite bind_throw, try_catch_throw.
Qed.

(** The handler of [server.mjs] once the prompt is rendered: one call, then
    either the catch block or the parse. *)
Lemma mjs_composed (body : JsVal) (prompt : string) :
  validated body = true -> composed body = Some prompt ->
  Mjs.analyze env client body =
  after [EvCreate (create_params (Mjs.TEXT_MODEL env) Mjs.systemPrompt prompt)]
    match client (create_params (Mjs.TEXT_MODEL env) Mjs.systemPrompt prompt) with
    | Rejected reason => Mjs.on_error reason
    | Resolved completion =>
        if nullish completion
        then Mjs.on_error (cannot_read completion "choices")
        else
          match JSON_parse (raw_of completion) with
          | Some parsed => ret (res_json (success parsed))
          | None =>
              after [EvConsoleError [JStr "JSON parse error, raw output:";
                                     raw_of completion]]
                (ret (res_status_json 500
                        (failure (JStr "Model output was not valid JSON."))))
          end
    end.
Proof.
  unfold validated, composed, request_field, Mjs.analyze, Mjs.userPrompt, eval_template.
  intros V C. cbv zeta. rewrite <- negb_andb, V, C. cbn [negb].
  rewrite bind_ret, bind_create, try_catch_after. f_equal.
  destruct (client _) as [completion|reason].
  - destruct (nullish completion) eqn:N.
    + now rewrite (raw_content_nullish _ N), bind_throw, try_catch_throw.
    + rewrite (raw_content_defined _ N), bind_ret.
      destruct (JSON_parse (raw_of completion)) as [parsed|]; [reflexivity|].
      unfold console_error. now rewrite bind_emit.
  - now rewrite try_catch_throw.
Qed.

(** The same for [server.js]. *)
Lemma js_composed (body : JsVal) (prompt : string) :
  validated body = true -> composed body = Some prompt ->
  Js.analyze env client body =
  after [EvCreate (create_params (Js.TEXT_MODEL env) Js.systemPrompt prompt)]
    match client (create_params (Js.TEXT_MODEL env) Js.systemPrompt prompt) with
    | Rejected reason => Js.on_error reason
    | Resolved completion =>
        if nullish completion
        then Js.on_error (cannot_read completion "choices")
        else
          match JSON_parse (raw_of completion) with
          | Some parsed => ret (res_json (success parsed))
          | None =>
              after [EvConsoleError
                       [JStr "Failed to parse JSON from OpenAI. Raw content:";
                        raw_of completion]]
                (ret (res_json
                        (success
                           (JObj [("summary",
                                   JStr "Model returned non-JSON output from OpenAI.");
                                  ("raw", raw_of completion)]))))
          end
    end.
Proof.
  unfold validated, composed, request_field, Js.analyze, Js.userPrompt, eval_template.
  intros V C. cbv zeta. rewrite <- negb_andb, V, C. cbn [negb].
  rewrite bind_ret, bind_create, try_catch_after. f_equal.
  destruct (client _) as [completion|reason].
  - destruct (nullish completion) eqn:N.
    + now rewrite (raw_content_nullish _ N), bind_throw, try_catch_throw.
    + rewrite (raw_content_defined _ N), bind_ret.
      destruct (JSON_parse (raw_of completion)) as [parsed|].
      * now rewrite bind_ret.
      * unfold console_error. now rewrite bind_emit, bind_after, bind_ret.
  - now rewrite try_catch_throw.
Qed.

End Paths.

(** *** Computations that make no outbound call *)

Lemma quiet_ret {A} (a : A) : quiet (ret a).
Proof. reflexivity. Qed.

Lemma quiet_throw {A} (e : JsVal) : quiet (@throw A e).
Proof. reflexivity. Qed.

Lemma quiet_console_error (args : list JsVal) : quiet (console_error args).
Proof. reflexivity. Qed.

Lemma quiet_member (v : JsVal) (key : string) : quiet (member v key).
Proof. unfold member. now destruct (nullish v). Qed.

Lemma quiet_eval_template {engine : Engine} (parts : list Part) :
  quiet (eval_template parts).
Proof. unfold eval_template. now destruct (template parts). Qed.

Lemma quiet_bind {A B} (m : M A) (f : A -> M B) :
  quiet m -> (forall a, quiet (f a)) -> quiet (bind m f).
Proof.
  unfold quiet, trace, bind. destruct m as [[a|e] t]; cbn [snd]; intros Hm Hf; [|exact Hm].
  specialize (Hf a). destruct (f a) as [r t']. cbn [snd] in *.
  now rewrite calls_app, Hm, Hf.
Qed.

Lemma quiet_if {A} (b : bool) (m1 m2 : M A) :
  quiet m1 -> quiet m2 -> quiet (if b then m1 else m2).
Proof. now destruct b. Qed.

Lemma quiet_after {A} (t : list Event) (m : M A) :
  calls t = [] -> quiet m -> quiet (after t m).
Proof. unfold quiet. intros Ht Hm. now rewrite trace_after, calls_app, Ht, Hm. Qed.

Create HintDb quiet.

#[local] Hint Resolve quiet_ret quiet_throw quiet_console_error quiet_member
  quiet_eval_template quiet_if : quiet.

Ltac quiet_steps :=
  repeat first
    [ apply quiet_bind; [ | intros ? ]
    | apply quiet_if
    | solve [ auto with quiet ] ].

Section CatchBlocks.

Context {engine : Engine}.

Lemma mjs_on_error_quiet (error : JsVal) : quiet (Mjs.on_error error).
Proof. unfold Mjs.on_error. quiet_steps. Qed.

Lemma js_on_error_quiet (error : JsVal) : quiet (Js.on_error error).
Proof. unfold Js.on_error. quiet_steps. Qed.

(** The catch block of [server.mjs] on a thrown value that is neither
    [undefined] nor [null] and whose status and message have a string
    form: three log lines and the 500 answer. *)
Lemma mjs_on_error_defined (error : JsVal) (st msg : string) :
  nullish error = false ->
  ToString (js_or (upstream_status error) (JStr "unknown")) = Some st ->
  ToString (message_mjs error) = Some msg ->
  Mjs.on_error error =
  after [EvConsoleError [JStr "OpenAI error (full):"; error];
         EvConsoleError [JStr "OpenAI error status:"; upstream_status error];
         EvConsoleError [JStr "OpenAI error message:"; message_mjs error]]
    (ret (res_status_json 500
            (failure (JStr ("OpenAI error (" ++ st ++ "): " ++ msg))))).
Proof.
  intros N S Mg. unfold Mjs.on_error, console_error.
  rewrite bind_emit. fold (upstream_status error). fold (provider_message error).
  cbv zeta.
  assert (E : (if truthy (provider_message error) then ret (provider_message error)
               else if truthy (opt_prop (opt_prop error "error") "message")
                    then ret (opt_prop (opt_prop error "error") "message")
                    else generic <- member error "message";;
                         ret (js_or generic (JStr "Failed to generate analysis.")))
              = ret (message_mjs error)).
  { unfold message_mjs, member. rewrite N, bind_ret. unfold js_or.
    destruct (truthy (provider_message error)); [reflexivity|].
    now destruct (truthy (opt_prop (opt_prop error "error") "message")). }
  rewrite E, bind_ret, bind_emit, bind_emit.
  unfold eval_template. cbn [template]. rewrite S, Mg.
  rewrite append_empty_r, bind_ret, !after_after. reflexivity.
Qed.

(** The catch block of [server.js] on such a value: one log line and the
    500 answer with the message alone. *)
Lemma js_on_error_defined (error : JsVal) :
  nullish error = false ->
  Js.on_error error =
  after [EvConsoleError
           [JStr "OpenAI error:";
            JObj [("message", prop error "message"); ("name", prop error "name");
                  ("status", prop error "status");
                  ("data", opt_prop (prop error "response") "data")]]]
    (ret (res_status_json 500 (failure (message_js error)))).
Proof.
  intros N. unfold Js.on_error, console_error, member. rewrite N. cbv beta iota.
  rewrite !bind_ret, bind_emit. f_equal.
  unfold message_js, provider_message.
  replace (opt_prop error "response") with (prop error "response")
    by (unfold opt_prop; now rewrite N).
  unfold js_or.
  destruct (truthy (opt_prop (opt_prop (opt_prop (prop error "response") "data")
                                       "error") "message"));
    now rewrite bind_ret.
Qed.

End CatchBlocks.

(** *** The outbound calls of a request *)

Section Calls.

Context {engine : Engine}.
Variable env : Env.
Variable client : Client.

(** No call for a request that fails validation or whose prompt cannot be
    rendered; otherwise exactly the one call, whatever follows it. *)
Lemma mjs_calls (body : JsVal) :
  calls (trace (Mjs.analyze env client body)) =
  if validated body then
    match composed body with
    | Some prompt => [create_params (Mjs.TEXT_MODEL env) Mjs.systemPrompt prompt]
    | None => []
    end
  else [].
Proof.
  destruct (validated body) eqn:V; [|now rewrite (mjs_invalid _ _ _ V)].
  destruct (composed body) as [prompt|] eqn:C.
  - rewrite (mjs_composed _ _ _ _ V C), trace_after, calls_app. cbn [calls app].
    f_equal. destruct (client _) as [completion|reason].
    + destruct (nullish completion); [apply mjs_on_error_quiet|].
      now destruct (JSON_parse (raw_of completion)).
    + apply mjs_on_error_quiet.
  - rewrite (mjs_not_composed _ _ _ V C). apply mjs_on_error_quiet.
Qed.

Lemma js_calls (body : JsVal) :
  calls (trace (Js.analyze env client body)) =
  if validated body then
    match composed body with
    | Some prompt => [create_params (Js.TEXT_MODEL env) Js.systemPrompt prompt]
    | None => []
    end
  else [].
Proof.
  destruct (validated body) eqn:V; [|now rewrite (js_invalid _ _ _ V)].
  destruct (composed body) as [prompt|] eqn:C.
  - rewrite (js_composed _ _ _ _ V C), trace_after, calls_app. cbn [calls app].
    f_equal. destruct (client _) as [completion|reason].
    + destruct (nullish completion); [apply js_on_error_quiet|].
      now destruct (JSON_parse (raw_of completion)).
    + apply js_on_error_quiet.
  - rewrite (js_not_composed _ _ _ V C). apply js_on_error_quiet.
Qed.

End Calls.

(** *** Rendering the prompt of a typed request *)

Section Typed.

Context {engine : Engine}.




(** *** Values without a string form *)

Lemma ToString_JArr_cons (x : JsVal) (rest : list JsVal) :
  ToString (JArr (x :: rest)) =
  match (if nullish x then Some EmptyString else ToString x) with
  | None => None
  | Some sx =>
      match rest with
      | [] => Some sx
      | _ :: _ =>
          match ToString (JArr rest) with
          | Some sr => Some (sx ++ "," ++ sr)
          | None => None
          end
      end
  end.
Proof. reflexivity. Qed.

Lemma shadowed_JArr_cons (x : JsVal) (rest : list JsVal) :
  shadowed (JArr (x :: rest)) =
  (negb (nullish x) && shadowed x) || shadowed (JArr rest).
Proof. reflexivity. Qed.

(** [ToString] throws exactly on the shadowed values. *)
Lemma ToString_None_iff : forall v : JsVal, ToString v = None <-> shadowed v = true.
Proof.
  fix IH 1. intros [| |b|n|s|elems|props].
  - split; discriminate.
  - split; discriminate.
  - destruct b; split; discriminate.
  - split; discriminate.
  - split; discriminate.
  - induction elems as [|x rest IHl].
    + split; discriminate.
    + rewrite ToString_JArr_cons, shadowed_JArr_cons.
      specialize (IH x). destruct (nullish x); cbn [negb andb orb].
      * destruct rest as [|y rest']; [split; discriminate |].
        destruct (ToString (JArr (y :: rest'))); rewrite <- IHl;
          split; congruence.
      * destruct (ToString x) as [sx|].
        -- destruct (shadowed x); [destruct IH as [_ K]; discriminate (K eq_refl) |].
           cbn [orb].
           destruct rest as [|y rest']; [split; discriminate |].
           destruct (ToString (JArr (y :: rest'))); rewrite <- IHl;
             split; congruence.
        -- rewrite (proj1 IH eq_refl). now split.
  - cbn [ToString shadowed]. destruct (lookup "toString" props); split; congruence.
Qed.

Lemma shadowed_js_or (v : JsVal) (default : string) :
  shadowed (js_or v (JStr default)) = shadowed v.
Proof. unfold js_or. destruct v as [| |[|]| |[|]| |]; try reflexivity.
  cbn [truthy]. now destruct (negb (Number_is_zero n)).
Qed.

Lemma template_cons_None (p : Part) (rest : list Part) :
  template (p :: rest) = None <->
  match p with Lit _ => False | Sub v => shadowed v = true end
  \/ template rest = None.
Proof.
  destruct p as [s|v]; cbn [template].
  - destruct (template rest); split; try tauto; try congruence.
    intros [[]|]; congruence.
  - rewrite <- ToString_None_iff.
    destruct (ToString v), (template rest); split; try tauto; try congruence;
      intros [|]; congruence.
Qed.

(** Rendering the user prompt throws exactly when a field is shadowed. *)
Lemma composed_None_iff (body : JsVal) :
  composed body = None <-> unrenderable body = true.
Proof.
  unfold composed, userPrompt_parts, unrenderable.
  rewrite !template_cons_None, !shadowed_js_or, !orb_true_iff. cbn [template].
  split; [|tauto]. intros H.
  repeat match type of H with
         | _ \/ _ => destruct H as [H | H]
         end; try tauto; try discriminate.
Qed.

Lemma AnalysisRequest_renders (body : JsVal) :
  AnalysisRequest body = true -> unrenderable body = false.
Proof.
  unfold AnalysisRequest, unrenderable. rewrite !andb_true_iff.
  intros [[[Hc Hn] Hp] Hg].
  destruct (request_field body "callType"); try discriminate.
  destruct (request_field body "notes"); try discriminate.
  destruct (request_field body "persona"); try discriminate;
    destruct (request_field body "goal"); try discriminate; reflexivity.
Qed.

End Typed.

(** ** Properties of the two servers *)

(** C1. When the call succeeds and the text to parse, [raw_of completion],
    is not JSON, each variant follows one policy on every such request:
    [server.mjs] answers 500 with [success: false] and the fixed message,
    which carries nothing of the model's text; [server.js] answers 200 with
    [success: true] and an analysis whose [raw] field is that text as it
    came. Both end normally: the parse failure is not left unhandled. *)
Theorem parse_failure_policy {engine : Engine} (env : Env) (client : Client)
    (body : JsVal) (prompt : string) (completion : JsVal) :
  validated body = true ->
  composed body = Some prompt ->
  nullish completion = false ->
  JSON_parse (raw_of completion) = None ->
  (client (mjs_params env prompt) = Resolved completion ->
   outcome (Mjs.analyze env client body) =
   Normal (mkResponse 500
             (JObj [("success", JBool false);
                    ("error", JStr "Model output was not valid JSON.")])))
  /\
  (client (js_params env prompt) = Resolved completion ->
   outcome (Js.analyze env client body) =
   Normal (mkResponse 200
             (JObj [("success", JBool true);
                    ("analysis",
                     JObj [("summary",
                            JStr "Model returned non-JSON output from OpenAI.");
                           ("raw", raw_of completion)])]))).
Proof.
  intros V C N P. split; intros R.
  - rewrite (mjs_composed _ _ _ _ V C), outcome_after.
    fold (mjs_params env prompt). now rewrite R, N, P.
  - rewrite (js_composed _ _ _ _ V C), outcome_after.
    fold (js_params env prompt). now rewrite R, N, P.
Qed.

Lemma parse_failure_policy_witness :
  outcome (@Mjs.analyze Reference.engine env0
             (resolves (completion_of (JStr "not json"))) body0) =
  Normal (mkResponse 500
            (JObj [("success", JBool false);
                   ("error", JStr "Model output was not valid JSON.")]))
  /\
  outcome (@Js.analyze Reference.engine env0
             (resolves (completion_of (JStr "not json"))) body0) =
  Normal (mkResponse 200
            (JObj [("success", JBool true);
                   ("analysis",
                    JObj [("summary",
                           JStr "Model returned non-JSON output from OpenAI.");
                          ("raw", JStr "not json")])])).
Proof.
  destruct (@parse_failure_policy Reference.engine env0
              (resolves (completion_of (JStr "not json"))) body0
              (user_text "Radiology w/ Pre-Auth" default_persona default_goal
                 "Patient called twice about a pending MRI authorization.")
              (completion_of (JStr "not json")))
    as [Hm Hj]; try reflexivity.
  split; [apply Hm | apply Hj]; reflexivity.
Defined.

(** C2. A request without a truthy [callType] or without a truthy [notes]
    is answered 400 with exactly [{ success: false, error: "callType and
    notes are required." }], and the handler does nothing else: no log, no
    outbound call. *)
Theorem missing_field_rejected {engine : Engine} (env : Env) (client : Client)
    (body : JsVal) :
  truthy (request_field body "callType") = false
  \/ truthy (request_field body "notes") = false ->
  Mjs.analyze env client body =
  (Normal (mkResponse 400
             (JObj [("success", JBool false);
                    ("error", JStr "callType and notes are required.")])),
   [])
  /\
  Js.analyze env client body =
  (Normal (mkResponse 400
             (JObj [("success", JBool false);
                    ("error", JStr "callType and notes are required.")])),
   []).
Proof.
  intros H.
  assert (V : validated body = false).
  { unfold validated. destruct H as [-> | ->]; [reflexivity | apply andb_false_r]. }
  now rewrite (mjs_invalid _ _ _ V), (js_invalid _ _ _ V).
Qed.

Lemma missing_field_rejected_witness :
  let body := JObj [("callType", JStr "Appointment Rescheduling");
                    ("notes", JStr EmptyString)] in
  @Mjs.analyze Reference.engine env0 (resolves JNull) body =
  (Normal validation_failure, [])
  /\ @Js.analyze Reference.engine env0 (resolves JNull) body =
     (Normal validation_failure, []).
Proof.
  apply (@missing_field_rejected Reference.engine). right. reflexivity.
Defined.

(** C3, as the code has it. The call is rejected with a value that is
    neither [undefined] nor [null]. [server.js] then answers 500 with
    [success: false] and, as [error], the provider's message
    ([response.data.error.message]), else the value's own [message], else
    ["Failed to generate analysis."]: the message alone, without the
    status. [server.mjs] takes the status ([error.status], else
    [error.response.status], else the word ["unknown"]) and the message
    (the provider's, else [error.error.message], else [error.message],
    else the same fallback); when both have a string form it answers 500
    with [success: false] and the string
    ["OpenAI error (<status>): <message>"]. For a rejection with status
    429 and message ["rate limited"], the [error] field contains
    ["rate limited"] in both. *)
Theorem transport_failure_response {engine : Engine} (env : Env) (client : Client)
    (body : JsVal) (prompt : string) (reason : JsVal) :
  validated body = true ->
  composed body = Some prompt ->
  nullish reason = false ->
  (client (mjs_params env prompt) = Rejected reason ->
   forall st msg : string,
     ToString (js_or (upstream_status reason) (JStr "unknown")) = Some st ->
     ToString (message_mjs reason) = Some msg ->
     outcome (Mjs.analyze env client body) =
     Normal (mkResponse 500
               (JObj [("success", JBool false);
                      ("error", JStr ("OpenAI error (" ++ st ++ "): " ++ msg))])))
  /\
  (client (js_params env prompt) = Rejected reason ->
   outcome (Js.analyze env client body) =
   Normal (mkResponse 500
             (JObj [("success", JBool false); ("error", message_js reason)])))
  /\
  (reason = rate_limited ->
   (client (mjs_params env prompt) = Rejected reason ->
    exists text,
      outcome (Mjs.analyze env client body) =
      Normal (mkResponse 500 (JObj [("success", JBool false); ("error", JStr text)]))
      /\ contains text "rate limited")
   /\
   (client (js_params env prompt) = Rejected reason ->
    exists text,
      outcome (Js.analyze env client body) =
      Normal (mkResponse 500 (JObj [("success", JBool false); ("error", JStr text)]))
      /\ contains text "rate limited")).
Proof.
  intros V C N.
  assert (Hm : client (mjs_params env prompt) = Rejected reason ->
               forall st msg : string,
                 ToString (js_or (upstream_status reason) (JStr "unknown")) = Some st ->
                 ToString (message_mjs reason) = Some msg ->
                 outcome (Mjs.analyze env client body) =
                 Normal (mkResponse 500
                           (failure (JStr ("OpenAI error (" ++ st ++ "): " ++ msg))))).
  { intros R st msg S Mg. rewrite (mjs_composed _ _ _ _ V C), outcome_after.
    fold (mjs_params env prompt). rewrite R.
    now rewrite (mjs_on_error_defined _ _ _ N S Mg), outcome_after. }
  assert (Hj : client (js_params env prompt) = Rejected reason ->
               outcome (Js.analyze env client body) =
               Normal (mkResponse 500 (failure (message_js reason)))).
  { intros R. rewrite (js_composed _ _ _ _ V C), outcome_after.
    fold (js_params env prompt). rewrite R.
    now rewrite (js_on_error_defined _ N), outcome_after. }
  split; [exact Hm | split; [exact Hj |]].
  intros ->. split; intros R.
  - eexists. split; [apply (Hm R); reflexivity |].
    apply contains_append_r, contains_append_r, contains_append_r, contains_refl.
  - exists "rate limited". split; [exact (Hj R) | apply contains_refl].
Qed.

Lemma transport_failure_response_witness :
  outcome (@Mjs.analyze Reference.engine env0 (rejects rate_limited) body0) =
  Normal (mkResponse 500
            (JObj [("success", JBool false);
                   ("error", JStr "OpenAI error (429): rate limited")]))
  /\
  outcome (@Js.analyze Reference.engine env0 (rejects rate_limited) body0) =
  Normal (mkResponse 500
            (JObj [("success", JBool false); ("error", JStr "rate limited")])).
Proof.
  destruct (@transport_failure_response Reference.engine env0
              (rejects rate_limited) body0
              (user_text "Radiology w/ Pre-Auth" default_persona default_goal
                 "Patient called twice about a pending MRI authorization.")
              rate_limited)
    as (Hm & Hj & _); try reflexivity.
  split; [apply (Hm eq_refl "429" "rate limited") | apply Hj]; reflexivity.
Defined.

(** Against C3 as first stated: in [server.js] the upstream status is
    known, 429, and the [error] string of the answer does not contain it. *)
Lemma js_error_omits_status :
  upstream_status rate_limited = JNum (Number_of_Z 429)
  /\ outcome (@Js.analyze Reference.engine env0 (rejects rate_limited) body0) =
     Normal (mkResponse 500
               (JObj [("success", JBool false); ("error", JStr "rate limited")]))
  /\ ~ contains "rate limited" "429".
Proof.
  split; [reflexivity | split; [reflexivity |]].
  rewrite <- includes_contains. discriminate.
Qed.






(** C5, as the code has it. A validated request none of whose four
    fields lacks a string form (so every request whose fields are strings,
    numbers, booleans or [null]) makes exactly one outbound call, whatever
    the call and the steps after it end with (there is no retry):
    temperature 0.2, the [json_object] response format, and two messages,
    the fixed system prompt under role [system] and the rendered user
    prompt under role [user]. A validated request with a field that has no
    string form makes no call: rendering the user prompt throws first. *)
Theorem one_call_when_rendered {engine : Engine} (env : Env) (client : Client)
    (body : JsVal) :
  validated body = true ->
  (unrenderable body = false ->
   exists prompt : string,
     composed body = Some prompt
     /\ calls (trace (Mjs.analyze env client body)) =
        [ {| model := Mjs.TEXT_MODEL env;
             temperature := mkNumber 2 (-1);
             response_format := JObj [("type", JStr "json_object")];
             messages := [ mkMessage "system" Mjs.systemPrompt;
                           mkMessage "user" prompt ] |} ]
     /\ calls (trace (Js.analyze env client body)) =
        [ {| model := Js.TEXT_MODEL env;
             temperature := mkNumber 2 (-1);
             response_format := JObj [("type", JStr "json_object")];
             messages := [ mkMessage "system" Js.systemPrompt;
                           mkMessage "user" prompt ] |} ])
  /\
  (unrenderable body = true ->
   calls (trace (Mjs.analyze env client body)) = []
   /\ calls (trace (Js.analyze env client body)) = []).
Proof.
  intros V. rewrite mjs_calls, js_calls, V. split; intros U.
  - destruct (composed body) as [prompt|] eqn:C.
    + now exists prompt.
    + apply composed_None_iff in C. congruence.
  - apply composed_None_iff in U. now rewrite U.
Qed.

Lemma one_call_when_rendered_witness :
  length (calls (trace (@Mjs.analyze Reference.engine env0
                          (rejects rate_limited) body0))) = 1%nat
  /\ length (calls (trace (@Js.analyze Reference.engine env0
                             (resolves (completion_of (JStr "not json"))) body0)))
     = 1%nat.
Proof.
  destruct (proj1 (@one_call_when_rendered Reference.engine env0
                     (rejects rate_limited) body0 eq_refl) eq_refl)
    as (p & _ & Hm & _).
  destruct (proj1 (@one_call_when_rendered Reference.engine env0
                     (resolves (completion_of (JStr "not json"))) body0 eq_refl)
              eq_refl)
    as (q & _ & _ & Hj).
  rewrite Hm, Hj. split; reflexivity.
Defined.

(** Against C5 as first stated: [body_shadowed] passes validation, and
    neither variant makes a call for it. *)
Lemma validated_request_without_call :
  validated body_shadowed = true
  /\ calls (trace (@Mjs.analyze Reference.engine env0
                     (resolves completion_low_risk) body_shadowed)) = []
  /\ calls (trace (@Js.analyze Reference.engine env0
                     (resolves completion_low_risk) body_shadowed)) = [].
Proof. repeat split. Qed.

(** The parts of a completion whose absence leaves no content: no
    [choices], no first choice, no [message], an empty [content]. *)
Lemma missing_parts_are_absent (completion : JsVal) :
  nullish (prop completion "choices") = true
  \/ nullish (opt_prop (prop completion "choices") "0") = true
  \/ nullish (opt_prop (opt_prop (prop completion "choices") "0") "message") = true
  \/ first_content completion = JStr EmptyString ->
  truthy (first_content completion) = false.
Proof.
  unfold first_content.
  intros [H | [H | [H | H]]]; [| | | now rewrite H];
    unfold opt_prop at 1; [unfold opt_prop at 1; unfold opt_prop at 1 | unfold opt_prop at 1 | ];
    now rewrite H.
Qed.

(** C6. When the call succeeds and the first completion has no content
    (the chain [choices?.[0]?.message?.content] is falsy), the text parsed
    is the literal ["{}"], so the answer is 200 with
    [{ success: true, analysis: {} }] and the parse-failure path is not
    taken. The engine is assumed to parse ["{}"] as the empty object. *)
Theorem absent_content_defaults {engine : Engine} (env : Env) (client : Client)
    (body : JsVal) (prompt : string) (completion : JsVal) :
  JSON_parse_text "{}" = Some (JObj []) ->
  validated body = true ->
  composed body = Some prompt ->
  nullish completion = false ->
  truthy (first_content completion) = false ->
  raw_of completion = JStr "{}"
  /\
  (client (mjs_params env prompt) = Resolved completion ->
   outcome (Mjs.analyze env client body) =
   Normal (mkResponse 200 (JObj [("success", JBool true); ("analysis", JObj [])])))
  /\
  (client (js_params env prompt) = Resolved completion ->
   outcome (Js.analyze env client body) =
   Normal (mkResponse 200 (JObj [("success", JBool true); ("analysis", JObj [])]))).
Proof.
  intros E V C N F.
  assert (R : raw_of completion = JStr "{}") by (unfold raw_of, js_or; now rewrite F).
  assert (P : JSON_parse (raw_of completion) = Some (JObj [])) by (now rewrite R).
  split; [exact R | split; intros H].
  - rewrite (mjs_composed _ _ _ _ V C), outcome_after.
    fold (mjs_params env prompt). now rewrite H, N, P.
  - rewrite (js_composed _ _ _ _ V C), outcome_after.
    fold (js_params env prompt). now rewrite H, N, P.
Qed.

Lemma absent_content_defaults_witness :
  outcome (@Mjs.analyze Reference.engine env0
             (resolves (JObj [("choices", JArr [])])) body0) =
  Normal (mkResponse 200 (JObj [("success", JBool true); ("analysis", JObj [])]))
  /\
  outcome (@Js.analyze Reference.engine env0
             (resolves (JObj [("choices", JArr [])])) body0) =
  Normal (mkResponse 200 (JObj [("success", JBool true); ("analysis", JObj [])])).
Proof.
  destruct (@absent_content_defaults Reference.engine env0
              (resolves (JObj [("choices", JArr [])])) body0
              (user_text "Radiology w/ Pre-Auth" default_persona default_goal
                 "Patient called twice about a pending MRI authorization.")
              (JObj [("choices", JArr [])]))
    as (_ & Hm & Hj); try reflexivity.
  split; [apply Hm | apply Hj]; reflexivity.
Defined.

(** C7 at the input where the code departs from it: the API key is
    unset. The module prints its warning, then [new OpenAI] throws before
    [app.get("/health", ...)] and [app.listen] are reached: there is no
    server, so no [GET /health] is answered. The same in both files. *)
Theorem no_server_without_key {engine : Engine} (error : JsVal) (client : Client)
    (text_model port : option string) :
  Mjs.startup (mkEnv None text_model port) =
  [ "WARNING: OPENAI_API_KEY is not set. Start the server with:" ++ nl
    ++ "OPENAI_API_KEY=" ++ quoted "sk-..." ++ " npm start" ]
  /\ Mjs.app (OpenAI_sdk error client) (mkEnv None text_model port) = Thrown error
  /\ Js.startup (mkEnv None text_model port) =
     [ "WARNING: OPENAI_API_KEY is not set. Start the server with:" ++ nl
       ++ "OPENAI_API_KEY=" ++ quoted "sk-..." ++ " node server.js" ]
  /\ Js.app (OpenAI_sdk error client) (mkEnv None text_model port) = Thrown error.
Proof. repeat split. Qed.

(** C8, as the code has it. Rendering the prompts has no effect and
    depends on the four fields only: two requests with equal [callType],
    [persona], [goal] and [notes] render alike and send the same system
    and user prompts, whatever else differs (other fields of the body,
    the environment, the client). It ends normally with a string when no
    field lacks a string form, as for every request with the field types
    of the data model, and throws a [TypeError] when one does. *)
Theorem prompt_composition {engine : Engine} (env1 env2 : Env)
    (client1 client2 : Client) (body1 body2 : JsVal) :
  (forall key, In key ["callType"; "persona"; "goal"; "notes"] ->
               request_field body2 key = request_field body1 key) ->
  (Mjs.userPrompt (request_field body2 "callType") (request_field body2 "persona")
                  (request_field body2 "goal") (request_field body2 "notes")
   = Mjs.userPrompt (request_field body1 "callType") (request_field body1 "persona")
                    (request_field body1 "goal") (request_field body1 "notes")
   /\ Js.userPrompt (request_field body2 "callType") (request_field body2 "persona")
                    (request_field body2 "goal") (request_field body2 "notes")
      = Js.userPrompt (request_field body1 "callType") (request_field body1 "persona")
                      (request_field body1 "goal") (request_field body1 "notes")
   /\ map messages (calls (trace (Mjs.analyze env2 client2 body2))) =
      map messages (calls (trace (Mjs.analyze env1 client1 body1)))
   /\ map messages (calls (trace (Js.analyze env2 client2 body2))) =
      map messages (calls (trace (Js.analyze env1 client1 body1))))
  /\
  (unrenderable body1 = false ->
   exists prompt : string,
     Mjs.userPrompt (request_field body1 "callType") (request_field body1 "persona")
                    (request_field body1 "goal") (request_field body1 "notes")
     = (Normal prompt, [])
     /\ Js.userPrompt (request_field body1 "callType") (request_field body1 "persona")
                      (request_field body1 "goal") (request_field body1 "notes")
        = (Normal prompt, []))
  /\
  (unrenderable body1 = true ->
   Mjs.userPrompt (request_field body1 "callType") (request_field body1 "persona")
                  (request_field body1 "goal") (request_field body1 "notes")
   = (Thrown not_primitive, [])
   /\ Js.userPrompt (request_field body1 "callType") (request_field body1 "persona")
                    (request_field body1 "goal") (request_field body1 "notes")
      = (Thrown not_primitive, []))
  /\
  (AnalysisRequest body1 = true -> unrenderable body1 = false).
Proof.
  intros Same.
  assert (Ec : request_field body2 "callType" = request_field body1 "callType")
    by (apply Same; simpl; tauto).
  assert (Ep : request_field body2 "persona" = request_field body1 "persona")
    by (apply Same; simpl; tauto).
  assert (Eg : request_field body2 "goal" = request_field body1 "goal")
    by (apply Same; simpl; tauto).
  assert (En : request_field body2 "notes" = request_field body1 "notes")
    by (apply Same; simpl; tauto).
  assert (V2 : validated body2 = validated body1)
    by (unfold validated; now rewrite Ec, En).
  assert (C2 : composed body2 = composed body1)
    by (unfold composed; now rewrite Ec, Ep, Eg, En).
  split; [|split; [|split]].
  - rewrite Ec, Ep, Eg, En, !mjs_calls, !js_calls, V2, C2.
    repeat split. now destruct (validated body1), (composed body1).
    now destruct (validated body1), (composed body1).
  - intros U. destruct (composed body1) as [prompt|] eqn:C.
    + exists prompt. unfold Mjs.userPrompt, Js.userPrompt, eval_template.
      unfold composed in C. now rewrite C.
    + apply composed_None_iff in C. congruence.
  - intros U. apply composed_None_iff in U.
    unfold Mjs.userPrompt, Js.userPrompt, eval_template.
    unfold composed in U. now rewrite U.
  - apply AnalysisRequest_renders.
Qed.

Lemma prompt_composition_witness :
  map messages (calls (trace (@Mjs.analyze Reference.engine
                                (mkEnv (Some "sk-test") (Some "gpt-4o") None)
                                (resolves JNull) body0_annotated))) =
  map messages (calls (trace (@Mjs.analyze Reference.engine env0
                                (rejects rate_limited) body0)))
  /\ exists prompt : string,
       @Mjs.userPrompt Reference.engine
         (request_field body0 "callType") (request_field body0 "persona")
         (request_field body0 "goal") (request_field body0 "notes")
       = (Normal prompt, []).
Proof.
  destruct (@prompt_composition Reference.engine env0
              (mkEnv (Some "sk-test") (Some "gpt-4o") None)
              (rejects rate_limited) (resolves JNull) body0 body0_annotated)
    as ((_ & _ & Hm & _) & Total & _).
  - intros key [<- | [<- | [<- | [<- | []]]]]; reflexivity.
  - split; [exact Hm |].
    destruct (Total eq_refl) as (prompt & Hp & _). now exists prompt.
Defined.

(** Against C8 as first stated: [body_shadowed] passes validation, and
    rendering its user prompt throws. *)
Lemma validated_request_not_rendered :
  validated body_shadowed = true
  /\ @Mjs.userPrompt Reference.engine
       (request_field body_shadowed "callType") (request_field body_shadowed "persona")
       (request_field body_shadowed "goal") (request_field body_shadowed "notes")
     = (Thrown not_primitive, [])
  /\ @Js.userPrompt Reference.engine
       (request_field body_shadowed "callType") (request_field body_shadowed "persona")
       (request_field body_shadowed "goal") (request_field body_shadowed "notes")
     = (Thrown not_primitive, []).
Proof. repeat split. Qed.

(** C9. A request without a body ([undefined] or [null]) is read as the
    empty object, so it gets the 400 answer of a request without fields,
    with no effect, and nothing is thrown. *)
Theorem absent_body_rejected {engine : Engine} (env : Env) (client : Client) :
  js_or JUndefined (JObj []) = JObj []
  /\ js_or JNull (JObj []) = JObj []
  /\ Mjs.analyze env client JUndefined = (Normal validation_failure, [])
  /\ Mjs.analyze env client JNull = (Normal validation_failure, [])
  /\ Mjs.analyze env client (JObj []) = (Normal validation_failure, [])
  /\ Js.analyze env client JUndefined = (Normal validation_failure, [])
  /\ Js.analyze env client JNull = (Normal validation_failure, [])
  /\ Js.analyze env client (JObj []) = (Normal validation_failure, [])
  /\ validation_failure =
     mkResponse 400
       (JObj [("success", JBool false);
              ("error", JStr "callType and notes are required.")]).
Proof. repeat split; reflexivity. Qed.

(** C10. The two variants answer alike where validation fails and where
    the content parses: for a request missing a required field both give
    the same answer (and do nothing else), and when each one's call
    resolves with the same completion whose content parses as JSON both
    answer 200 with [{ success: true, analysis: <parsed> }]. *)
Theorem variants_agree {engine : Engine} (env_mjs env_js : Env)
    (client_mjs client_js : Client) (body : JsVal) :
  (validated body = false ->
   Mjs.analyze env_mjs client_mjs body = Js.analyze env_js client_js body)
  /\
  (forall (prompt : string) (completion parsed : JsVal),
     validated body = true ->
     composed body = Some prompt ->
     client_mjs (mjs_params env_mjs prompt) = Resolved completion ->
     client_js (js_params env_js prompt) = Resolved completion ->
     nullish completion = false ->
     JSON_parse (raw_of completion) = Some parsed ->
     outcome (Mjs.analyze env_mjs client_mjs body) =
     Normal (mkResponse 200 (JObj [("success", JBool true); ("analysis", parsed)]))
     /\ outcome (Js.analyze env_js client_js body) =
        outcome (Mjs.analyze env_mjs client_mjs body)).
Proof.
  split.
  - intros V. now rewrite (mjs_invalid _ _ _ V), (js_invalid _ _ _ V).
  - intros prompt completion parsed V C Rm Rj N P.
    rewrite (mjs_composed _ _ _ _ V C), (js_composed _ _ _ _ V C), !outcome_after.
    fold (mjs_params env_mjs prompt). fold (js_params env_js prompt).
    rewrite Rm, Rj, N, P. split; reflexivity.
Qed.

Lemma variants_agree_witness :
  (@Mjs.analyze Reference.engine env0 (resolves JNull) (JObj [("notes", JStr "n")]) =
   @Js.analyze Reference.engine env0 (rejects JNull) (JObj [("notes", JStr "n")]))
  /\
  (outcome (@Mjs.analyze Reference.engine env0 (resolves completion_low_risk) body0) =
   Normal (mkResponse 200
             (JObj [("success", JBool true);
                    ("analysis", JObj [("summary", JStr "x");
                                       ("riskLevel", JStr "low")])]))
   /\ outcome (@Js.analyze Reference.engine env0 (resolves completion_low_risk) body0) =
      outcome (@Mjs.analyze Reference.engine env0 (resolves completion_low_risk) body0)).
Proof.
  split.
  - apply (@variants_agree Reference.engine env0 env0 (resolves JNull) (rejects JNull)).
    reflexivity.
  - apply (proj2 (@variants_agree Reference.engine env0 env0
                    (resolves completion_low_risk) (resolves completion_low_risk)
                    body0)
             (user_text "Radiology w/ Pre-Auth" default_persona default_goal
                "Patient called twice about a pending MRI authorization.")
             completion_low_risk);
      reflexivity.
Defined.

(** ** Further properties of the handlers *)

Section CatchOutcomes.

Context {engine : Engine}.

(** The catch block of [server.mjs] on a thrown value that is neither
    [undefined] nor [null]: three log lines, then the rendering of the
    answer. *)
Lemma mjs_on_error_unfold (error : JsVal) :
  nullish error = false ->
  Mjs.on_error error =
  after [EvConsoleError [JStr "OpenAI error (full):"; error];
         EvConsoleError [JStr "OpenAI error status:"; upstream_status error];
         EvConsoleError [JStr "OpenAI error message:"; message_mjs error]]
    (text <- eval_template [ Lit "OpenAI error (";
                             Sub (js_or (upstream_status error) (JStr "unknown"));
                             Lit "): "; Sub (message_mjs error) ] ;;
     ret (res_status_json 500 (failure (JStr text)))).
Proof.
  intros N. unfold Mjs.on_error, console_error.
  rewrite bind_emit. fold (upstream_status error). fold (provider_message error).
  cbv zeta.
  assert (E : (if truthy (provider_message error) then ret (provider_message error)
               else if truthy (opt_prop (opt_prop error "error") "message")
                    then ret (opt_prop (opt_prop error "error") "message")
                    else generic <- member error "message";;
                         ret (js_or generic (JStr "Failed to generate analysis.")))
              = ret (message_mjs error)).
  { unfold message_mjs, member. rewrite N, bind_ret. unfold js_or.
    destruct (truthy (provider_message error)); [reflexivity|].
    now destruct (truthy (opt_prop (opt_prop error "error") "message")). }
  rewrite E, bind_ret, bind_emit, bind_emit, !after_after. reflexivity.
Qed.

(** On [undefined] or [null] the catch block of [server.mjs] logs the
    value and then throws, reading [error.message]. *)
Lemma mjs_on_error_nullish (error : JsVal) :
  nullish error = true ->
  Mjs.on_error error =
  after [EvConsoleError [JStr "OpenAI error (full):"; error]]
    (throw (cannot_read error "message")).
Proof. destruct error; try discriminate; intros _; reflexivity. Qed.

(** The catch block of [server.mjs] answers exactly when
    [mjs_error_text] has a text. *)
Lemma mjs_on_error_cases (error : JsVal) :
  match mjs_error_text error with
  | Some text =>
      outcome (Mjs.on_error error) =
      Normal (res_status_json 500 (failure (JStr text)))
  | None => exists e, outcome (Mjs.on_error error) = Thrown e
  end.
Proof.
  unfold mjs_error_text. destruct (nullish error) eqn:N.
  - rewrite (mjs_on_error_nullish _ N). now eexists.
  - destruct (ToString (js_or (upstream_status error) (JStr "unknown")))
      as [st|] eqn:S;
      destruct (ToString (message_mjs error)) as [msg|] eqn:Mg.
    + now rewrite (mjs_on_error_defined _ _ _ N S Mg).
    + rewrite (mjs_on_error_unfold _ N), outcome_after.
      unfold eval_template. cbn [template]. rewrite ?S, ?Mg. now eexists.
    + rewrite (mjs_on_error_unfold _ N), outcome_after.
      unfold eval_template. cbn [template]. rewrite ?S, ?Mg. now eexists.
    + rewrite (mjs_on_error_unfold _ N), outcome_after.
      unfold eval_template. cbn [template]. rewrite ?S, ?Mg. now eexists.
Qed.

(** On [undefined] or [null] the catch block of [server.js] throws at its
    first read, before it logs. *)
Lemma js_on_error_nullish (error : JsVal) :
  nullish error = true ->
  Js.on_error error = throw (cannot_read error "message").
Proof. destruct error; try discriminate; intros _; reflexivity. Qed.

Lemma truthy_js_or_r (a b : JsVal) : truthy b = true -> truthy (js_or a b) = true.
Proof. unfold js_or. intros H. now destruct (truthy a) eqn:E. Qed.

Lemma message_js_truthy (error : JsVal) : truthy (message_js error) = true.
Proof. unfold message_js. now do 2 apply truthy_js_or_r. Qed.

(** A [TypeError] of the engine with a non-empty message has no status
    and that message. *)
Lemma mjs_error_text_TypeError (c : ascii) (msg : string) :
  mjs_error_text (TypeError (String c msg)) =
  Some ("OpenAI error (unknown): " ++ String c msg).
Proof. reflexivity. Qed.

Lemma message_js_TypeError (c : ascii) (msg : string) :
  message_js (TypeError (String c msg)) = JStr (String c msg).
Proof. reflexivity. Qed.

End CatchOutcomes.

Section Outcomes.

Context {engine : Engine}.
Variable env : Env.
Variable client : Client.

(** X1. Every answer of the analyze route, in both variants and on every
    path, is 200 with [{ success: true, analysis }] or 400 or 500 with
    [{ success: false, error }] and a truthy [error]. *)
Theorem responses_well_formed (body : JsVal) (r : Response) :
  (outcome (Mjs.analyze env client body) = Normal r -> well_formed r)
  /\ (outcome (Js.analyze env client body) = Normal r -> well_formed r).
Proof.
  assert (Hv : well_formed validation_failure).
  { right. split; [now left | now eexists]. }
  assert (Hs : forall a, well_formed (res_json (success a))).
  { intros a. left. split; [reflexivity | now exists a]. }
  assert (Hm : forall e, outcome (Mjs.on_error e) = Normal r -> well_formed r).
  { intros e H. pose proof (mjs_on_error_cases e) as K.
    destruct (mjs_error_text e) as [text|] eqn:T.
    - rewrite K in H. injection H as <-. right. split; [now right |].
      exists (JStr text). split; [reflexivity |].
      unfold mjs_error_text in T. destruct (nullish e); [discriminate |].
      destruct (ToString _); [|discriminate]. destruct (ToString _); [|discriminate].
      now injection T as <-.
    - destruct K as [x K]. congruence. }
  assert (Hj : forall e, outcome (Js.on_error e) = Normal r -> well_formed r).
  { intros e H. destruct (nullish e) eqn:N.
    - rewrite (js_on_error_nullish _ N) in H. discriminate.
    - rewrite (js_on_error_defined _ N), outcome_after in H. injection H as <-.
      right. split; [now right |]. exists (message_js e).
      split; [reflexivity | apply message_js_truthy]. }
  destruct (validated body) eqn:V.
  - destruct (composed body) as [prompt|] eqn:C.
    + rewrite (mjs_composed _ _ _ _ V C), (js_composed _ _ _ _ V C), !outcome_after.
      split; intros H.
      * destruct (client _) as [completion|reason]; [|now apply (Hm reason)].
        destruct (nullish completion); [now apply (Hm _ H) |].
        destruct (JSON_parse _); injection H as <-; [apply Hs |].
        right. split; [now right | now eexists].
      * destruct (client _) as [completion|reason]; [|now apply (Hj reason)].
        destruct (nullish completion); [now apply (Hj _ H) |].
        destruct (JSON_parse _); injection H as <-; apply Hs.
    + rewrite (mjs_not_composed _ _ _ V C), (js_not_composed _ _ _ V C).
      split; [apply Hm | apply Hj].
  - rewrite (mjs_invalid _ _ _ V), (js_invalid _ _ _ V).
    split; intros H; injection H as <-; exact Hv.
Qed.

End Outcomes.

Lemma responses_well_formed_witness :
  well_formed (mkResponse 500
                 (JObj [("success", JBool false);
                        ("error", JStr "OpenAI error (429): rate limited")])).
Proof.
  apply (proj1 (@responses_well_formed Reference.engine env0 (rejects rate_limited)
                  body0 _)).
  reflexivity.
Defined.

(** X2. The analyze route answers 400 exactly for the requests that fail
    validation: every other path answers 200 or 500, or throws. *)
Theorem client_error_iff_invalid {engine : Engine} (env : Env) (client : Client)
    (body : JsVal) :
  ((exists r, outcome (Mjs.analyze env client body) = Normal r /\ status r = 400%Z)
   <-> validated body = false)
  /\
  ((exists r, outcome (Js.analyze env client body) = Normal r /\ status r = 400%Z)
   <-> validated body = false).
Proof.
  assert (Hm : forall e r, outcome (Mjs.on_error e) = Normal r -> status r <> 400%Z).
  { intros e r H. pose proof (mjs_on_error_cases e) as K.
    destruct (mjs_error_text e); [|destruct K; congruence].
    rewrite K in H. now injection H as <-. }
  assert (Hj : forall e r, outcome (Js.on_error e) = Normal r -> status r <> 400%Z).
  { intros e r H. destruct (nullish e) eqn:N.
    - rewrite (js_on_error_nullish _ N) in H. discriminate.
    - rewrite (js_on_error_defined _ N), outcome_after in H. now injection H as <-. }
  destruct (validated body) eqn:V.
  - split; (split; [|discriminate]); intros (r & H & S); exfalso; revert S.
    + destruct (composed body) as [prompt|] eqn:C.
      * rewrite (mjs_composed _ _ _ _ V C), outcome_after in H.
        destruct (client _) as [completion|reason]; [|now apply (Hm reason)].
        destruct (nullish completion); [now apply (Hm _ _ H) |].
        destruct (JSON_parse _); now injection H as <-.
      * rewrite (mjs_not_composed _ _ _ V C) in H. now apply (Hm _ _ H).
    + destruct (composed body) as [prompt|] eqn:C.
      * rewrite (js_composed _ _ _ _ V C), outcome_after in H.
        destruct (client _) as [completion|reason]; [|now apply (Hj reason)].
        destruct (nullish completion); [now apply (Hj _ _ H) |].
        destruct (JSON_parse _); now injection H as <-.
      * rewrite (js_not_composed _ _ _ V C) in H. now apply (Hj _ _ H).
  - rewrite (mjs_invalid _ _ _ V), (js_invalid _ _ _ V).
    split; (split; [reflexivity |]); intros _; now exists validation_failure.
Qed.

Lemma client_error_iff_invalid_witness :
  validated (JObj [("callType", JStr "Appointment Rescheduling")]) = false.
Proof.
  apply (proj1 (@client_error_iff_invalid Reference.engine env0 (resolves JNull)
                  (JObj [("callType", JStr "Appointment Rescheduling")]))).
  now exists validation_failure.
Defined.

(** X3. [server.js] leaves a fault unhandled in exactly one case: the
    request is valid, its prompt rendered, and the call was rejected with
    [undefined] or [null]; the fault is then the [TypeError] of reading
    [error.message]. *)
Theorem js_unhandled_iff {engine : Engine} (env : Env) (client : Client)
    (body : JsVal) (e : JsVal) :
  outcome (Js.analyze env client body) = Thrown e
  <->
  validated body = true
  /\ exists prompt reason,
       composed body = Some prompt
       /\ client (js_params env prompt) = Rejected reason
       /\ nullish reason = true
       /\ e = cannot_read reason "message".
Proof.
  assert (Ho : forall x, nullish x = false -> outcome (Js.on_error x) <> Thrown e).
  { intros x N. now rewrite (js_on_error_defined _ N), outcome_after. }
  split.
  - intros H. destruct (validated body) eqn:V;
      [|rewrite (js_invalid _ _ _ V) in H; discriminate].
    split; [reflexivity |].
    destruct (composed body) as [prompt|] eqn:C.
    + rewrite (js_composed _ _ _ _ V C), outcome_after in H.
      fold (js_params env prompt) in H.
      destruct (client (js_params env prompt)) as [completion|reason] eqn:R.
      * exfalso. destruct (nullish completion).
        -- now apply (Ho (cannot_read completion "choices")).
        -- now destruct (JSON_parse _).
      * exists prompt, reason. destruct (nullish reason) eqn:N.
        -- rewrite (js_on_error_nullish _ N) in H. injection H as <-.
           now repeat split.
        -- now apply Ho in H.
    + exfalso. rewrite (js_not_composed _ _ _ V C) in H. now apply (Ho not_primitive).
  - intros (V & prompt & reason & C & R & N & ->).
    rewrite (js_composed _ _ _ _ V C), outcome_after.
    fold (js_params env prompt). now rewrite R, (js_on_error_nullish _ N).
Qed.

Lemma js_unhandled_iff_witness :
  outcome (@Js.analyze Reference.engine env0 (rejects JUndefined) body0) =
  Thrown (cannot_read JUndefined "message").
Proof.
  apply (proj2 (@js_unhandled_iff Reference.engine env0 (rejects JUndefined) body0 _)).
  split; [reflexivity |].
  exists (user_text "Radiology w/ Pre-Auth" default_persona default_goal
            "Patient called twice about a pending MRI authorization."), JUndefined.
  repeat split.
Defined.

(** X4. [server.mjs] leaves a fault unhandled exactly when the request is
    valid, its prompt rendered, and the call was rejected with a value its
    catch block cannot put into words: [undefined] or [null], or a value
    whose status or message has no string form. *)
Theorem mjs_unhandled_iff {engine : Engine} (env : Env) (client : Client)
    (body : JsVal) :
  (exists e, outcome (Mjs.analyze env client body) = Thrown e)
  <->
  validated body = true
  /\ exists prompt reason,
       composed body = Some prompt
       /\ client (mjs_params env prompt) = Rejected reason
       /\ mjs_error_text reason = None.
Proof.
  assert (Ho : forall x text e, mjs_error_text x = Some text ->
                                outcome (Mjs.on_error x) <> Thrown e).
  { intros x text e T. pose proof (mjs_on_error_cases x) as K. rewrite T in K.
    now rewrite K. }
  split.
  - intros [e H]. destruct (validated body) eqn:V;
      [|rewrite (mjs_invalid _ _ _ V) in H; discriminate].
    split; [reflexivity |].
    destruct (composed body) as [prompt|] eqn:C.
    + rewrite (mjs_composed _ _ _ _ V C), outcome_after in H.
      fold (mjs_params env prompt) in H.
      destruct (client (mjs_params env prompt)) as [completion|reason] eqn:R.
      * exfalso. destruct (nullish completion).
        -- revert H. apply (Ho _ _ _ (mjs_error_text_TypeError _ _)).
        -- now destruct (JSON_parse _).
      * exists prompt, reason. destruct (mjs_error_text reason) as [text|] eqn:T.
        -- now apply (Ho _ _ _ T) in H.
        -- now repeat split.
    + exfalso. rewrite (mjs_not_composed _ _ _ V C) in H.
      revert H. apply (Ho _ _ _ (mjs_error_text_TypeError _ _)).
  - intros (V & prompt & reason & C & R & T).
    rewrite (mjs_composed _ _ _ _ V C), outcome_after.
    fold (mjs_params env prompt). rewrite R.
    pose proof (mjs_on_error_cases reason) as K. now rewrite T in K.
Qed.

Lemma mjs_unhandled_iff_witness :
  exists e, outcome (@Mjs.analyze Reference.engine env0 (rejects reason_shadowed) body0)
            = Thrown e.
Proof.
  apply (proj2 (@mjs_unhandled_iff Reference.engine env0 (rejects reason_shadowed)
                  body0)).
  split; [reflexivity |].
  exists (user_text "Radiology w/ Pre-Auth" default_persona default_goal
            "Patient called twice about a pending MRI authorization."),
    reason_shadowed.
  repeat split.
Defined.

(** X5. A request that passes validation but whose prompt cannot be
    rendered (a field has no string form) is answered 500 by the catch
    block, worded as an upstream error by [server.mjs], and no outbound
    call is made. *)
Theorem unrenderable_prompt_answered {engine : Engine} (env : Env) (client : Client)
    (body : JsVal) :
  validated body = true ->
  composed body = None ->
  outcome (Mjs.analyze env client body) =
  Normal (mkResponse 500
            (JObj [("success", JBool false);
                   ("error",
                    JStr "OpenAI error (unknown): Cannot convert object to primitive value")]))
  /\ outcome (Js.analyze env client body) =
     Normal (mkResponse 500
               (JObj [("success", JBool false);
                      ("error", JStr "Cannot convert object to primitive value")]))
  /\ calls (trace (Mjs.analyze env client body)) = []
  /\ calls (trace (Js.analyze env client body)) = [].
Proof.
  intros V C. rewrite mjs_calls, js_calls, V, C.
  rewrite (mjs_not_composed _ _ _ V C), (js_not_composed _ _ _ V C).
  split; [exact (mjs_on_error_cases not_primitive) |].
  split; [now rewrite (js_on_error_defined not_primitive eq_refl) |].
  split; reflexivity.
Qed.

Lemma unrenderable_prompt_answered_witness :
  calls (trace (@Mjs.analyze Reference.engine env0 (resolves JNull) body_shadowed)) = []
  /\ outcome (@Js.analyze Reference.engine env0 (resolves JNull) body_shadowed) =
     Normal (mkResponse 500
               (JObj [("success", JBool false);
                      ("error", JStr "Cannot convert object to primitive value")])).
Proof.
  destruct (@unrenderable_prompt_answered Reference.engine env0 (resolves JNull)
              body_shadowed eq_refl eq_refl) as (_ & Hj & Hc & _).
  now split.
Defined.

(** X6. When the call resolves with [undefined] or [null], reading
    [completion.choices] throws inside the [try]; both variants answer 500
    from the catch block, after the one call. *)
Theorem nullish_completion_answered {engine : Engine} (env : Env) (client : Client)
    (body : JsVal) (prompt : string) (completion : JsVal) :
  validated body = true ->
  composed body = Some prompt ->
  nullish completion = true ->
  (client (mjs_params env prompt) = Resolved completion ->
   outcome (Mjs.analyze env client body) =
   Normal (mkResponse 500
             (JObj [("success", JBool false);
                    ("error",
                     JStr ("OpenAI error (unknown): Cannot read properties of "
                           ++ match completion with JNull => "null" | _ => "undefined" end
                           ++ " (reading 'choices')"))])))
  /\
  (client (js_params env prompt) = Resolved completion ->
   outcome (Js.analyze env client body) =
   Normal (mkResponse 500
             (JObj [("success", JBool false);
                    ("error",
                     JStr ("Cannot read properties of "
                           ++ match completion with JNull => "null" | _ => "undefined" end
                           ++ " (reading 'choices')"))]))).
Proof.
  intros V C N. split; intros R.
  - rewrite (mjs_composed _ _ _ _ V C), outcome_after.
    fold (mjs_params env prompt). rewrite R, N.
    exact (mjs_on_error_cases (cannot_read completion "choices")).
  - rewrite (js_composed _ _ _ _ V C), outcome_after.
    fold (js_params env prompt). rewrite R, N.
    now rewrite (js_on_error_defined (cannot_read completion "choices") eq_refl).
Qed.

Lemma nullish_completion_answered_witness :
  outcome (@Mjs.analyze Reference.engine env0 (resolves JUndefined) body0) =
  Normal (mkResponse 500
            (JObj [("success", JBool false);
                   ("error",
                    JStr "OpenAI error (unknown): Cannot read properties of undefined (reading 'choices')")])).
Proof.
  apply (proj1 (@nullish_completion_answered Reference.engine env0 (resolves JUndefined)
                  body0
                  (user_text "Radiology w/ Pre-Auth" default_persona default_goal
                     "Patient called twice about a pending MRI authorization.")
                  JUndefined eq_refl eq_refl eq_refl)).
  reflexivity.
Defined.

(** X7. A body that is not an object (an array, a string, a number, a
    boolean, or none at all) has no [callType] and no [notes]: both
    variants answer 400 and do nothing else. *)
Theorem non_object_body_rejected {engine : Engine} (env : Env) (client : Client)
    (body : JsVal) :
  is_object body = false ->
  Mjs.analyze env client body = (Normal validation_failure, [])
  /\ Js.analyze env client body = (Normal validation_failure, []).
Proof.
  intros O.
  assert (V : validated body = false).
  { unfold validated, request_field, js_or.
    destruct body as [| |b|n|s|elems|props]; try discriminate; try reflexivity.
    - now destruct b.
    - cbn [truthy]. now destruct (negb (Number_is_zero n)).
    - now destruct s. }
  now rewrite (mjs_invalid _ _ _ V), (js_invalid _ _ _ V).
Qed.

Lemma non_object_body_rejected_witness :
  @Mjs.analyze Reference.engine env0 (resolves JNull)
    (JArr [JObj [("callType", JStr "a"); ("notes", JStr "b")]]) =
  (Normal validation_failure, []).
Proof.
  apply (@non_object_body_rejected Reference.engine). reflexivity.
Defined.

(** X8. On the success path nothing is logged: the effects of the request
    are the one outbound call and no more, in both variants. *)
Theorem success_leaves_no_log {engine : Engine} (env : Env) (client : Client)
    (body : JsVal) (prompt : string) (completion parsed : JsVal) :
  validated body = true ->
  composed body = Some prompt ->
  nullish completion = false ->
  JSON_parse (raw_of completion) = Some parsed ->
  (client (mjs_params env prompt) = Resolved completion ->
   trace (Mjs.analyze env client body) = [EvCreate (mjs_params env prompt)])
  /\
  (client (js_params env prompt) = Resolved completion ->
   trace (Js.analyze env client body) = [EvCreate (js_params env prompt)]).
Proof.
  intros V C N P. split; intros R.
  - rewrite (mjs_composed _ _ _ _ V C), trace_after.
    fold (mjs_params env prompt). now rewrite R, N, P.
  - rewrite (js_composed _ _ _ _ V C), trace_after.
    fold (js_params env prompt). now rewrite R, N, P.
Qed.

Lemma success_leaves_no_log_witness :
  length (trace (@Mjs.analyze Reference.engine env0 (resolves completion_low_risk)
                   body0)) = 1%nat.
Proof.
  rewrite (proj1 (@success_leaves_no_log Reference.engine env0
                    (resolves completion_low_risk) body0
                    (user_text "Radiology w/ Pre-Auth" default_persona default_goal
                       "Patient called twice about a pending MRI authorization.")
                    completion_low_risk
                    (JObj [("summary", JStr "x"); ("riskLevel", JStr "low")])
                    eq_refl eq_refl eq_refl eq_refl) eq_refl).
  reflexivity.
Defined.

(** X9. On the parse-failure path each variant logs once, after the call:
    its own label and the text that did not parse. *)
Theorem parse_failure_logged_once {engine : Engine} (env : Env) (client : Client)
    (body : JsVal) (prompt : string) (completion : JsVal) :
  validated body = true ->
  composed body = Some prompt ->
  nullish completion = false ->
  JSON_parse (raw_of completion) = None ->
  (client (mjs_params env prompt) = Resolved completion ->
   trace (Mjs.analyze env client body) =
   [EvCreate (mjs_params env prompt);
    EvConsoleError [JStr "JSON parse error, raw output:"; raw_of completion]])
  /\
  (client (js_params env prompt) = Resolved completion ->
   trace (Js.analyze env client body) =
   [EvCreate (js_params env prompt);
    EvConsoleError [JStr "Failed to parse JSON from OpenAI. Raw content:";
                    raw_of completion]]).
Proof.
  intros V C N P. split; intros R.
  - rewrite (mjs_composed _ _ _ _ V C), trace_after.
    fold (mjs_params env prompt). now rewrite R, N, P.
  - rewrite (js_composed _ _ _ _ V C), trace_after.
    fold (js_params env prompt). now rewrite R, N, P.
Qed.

Lemma parse_failure_logged_once_witness :
  trace (@Js.analyze Reference.engine env0
           (resolves (completion_of (JStr "not json"))) body0) =
  [EvCreate (js_params env0
               (user_text "Radiology w/ Pre-Auth" default_persona default_goal
                  "Patient called twice about a pending MRI authorization."));
   EvConsoleError [JStr "Failed to parse JSON from OpenAI. Raw content:";
                   JStr "not json"]].
Proof.
  apply (proj2 (@parse_failure_logged_once Reference.engine env0
                  (resolves (completion_of (JStr "not json"))) body0
                  (user_text "Radiology w/ Pre-Auth" default_persona default_goal
                     "Patient called twice about a pending MRI authorization.")
                  (completion_of (JStr "not json"))
                  eq_refl eq_refl eq_refl eq_refl)).
  reflexivity.
Defined.

(** X10. What a rejected call leaves in the log. [server.mjs] logs the
    thrown value itself right after the call, whatever the value is and
    whatever happens next. [server.js] logs one object with the message,
    name, status and response data of the value, and logs nothing at all
    when the value is [undefined] or [null]. *)
Theorem rejection_logging {engine : Engine} (env : Env) (client : Client)
    (body : JsVal) (prompt : string) (reason : JsVal) :
  validated body = true ->
  composed body = Some prompt ->
  (client (mjs_params env prompt) = Rejected reason ->
   exists rest,
     trace (Mjs.analyze env client body) =
     EvCreate (mjs_params env prompt)
     :: EvConsoleError [JStr "OpenAI error (full):"; reason] :: rest)
  /\
  (client (js_params env prompt) = Rejected reason ->
   trace (Js.analyze env client body) =
   if nullish reason then [EvCreate (js_params env prompt)]
   else [EvCreate (js_params env prompt);
         EvConsoleError [JStr "OpenAI error:"; js_logged reason]]).
Proof.
  intros V C. split; intros R.
  - rewrite (mjs_composed _ _ _ _ V C), trace_after.
    fold (mjs_params env prompt). rewrite R.
    destruct (nullish reason) eqn:N.
    + rewrite (mjs_on_error_nullish _ N). now eexists.
    + rewrite (mjs_on_error_unfold _ N), trace_after. now eexists.
  - rewrite (js_composed _ _ _ _ V C), trace_after.
    fold (js_params env prompt). rewrite R.
    destruct (nullish reason) eqn:N.
    + now rewrite (js_on_error_nullish _ N).
    + now rewrite (js_on_error_defined _ N).
Qed.

Lemma rejection_logging_witness :
  trace (@Js.analyze Reference.engine env0 (rejects rate_limited) body0) =
  [EvCreate (js_params env0
               (user_text "Radiology w/ Pre-Auth" default_persona default_goal
                  "Patient called twice about a pending MRI authorization."));
   EvConsoleError
     [JStr "OpenAI error:";
      JObj [("message", JStr "rate limited"); ("name", JUndefined);
            ("status", JNum (Number_of_Z 429)); ("data", JUndefined)]]].
Proof.
  apply (proj2 (@rejection_logging Reference.engine env0 (rejects rate_limited) body0
                  (user_text "Radiology w/ Pre-Auth" default_persona default_goal
                     "Patient called twice about a pending MRI authorization.")
                  rate_limited eq_refl eq_refl)).
  reflexivity.
Defined.

(** X11. In [server.js] a call that resolves with a completion (not
    [undefined] or [null]) is always answered 200 with [success: true],
    whether or not its content parses: the analysis is the parsed value,
    or else the made-up object carrying the raw text. *)
Theorem js_resolved_always_ok {engine : Engine} (env : Env) (client : Client)
    (body : JsVal) (prompt : string) (completion : JsVal) :
  validated body = true ->
  composed body = Some prompt ->
  client (js_params env prompt) = Resolved completion ->
  nullish completion = false ->
  outcome (Js.analyze env client body) =
  Normal (mkResponse 200
            (success match JSON_parse (raw_of completion) with
                     | Some parsed => parsed
                     | None => js_fallback (raw_of completion)
                     end)).
Proof.
  intros V C R N. rewrite (js_composed _ _ _ _ V C), outcome_after.
  fold (js_params env prompt). rewrite R, N.
  now destruct (JSON_parse (raw_of completion)).
Qed.

Lemma js_resolved_always_ok_witness :
  outcome (@Js.analyze Reference.engine env0
             (resolves (completion_of (JNum (Number_of_Z 7)))) body0) =
  Normal (mkResponse 200 (success (JNum (Number_of_Z 7)))).
Proof.
  exact (@js_resolved_always_ok Reference.engine env0
           (resolves (completion_of (JNum (Number_of_Z 7)))) body0
           (user_text "Radiology w/ Pre-Auth" default_persona default_goal
              "Patient called twice about a pending MRI authorization.")
           (completion_of (JNum (Number_of_Z 7)))
           eq_refl eq_refl eq_refl eq_refl).
Defined.

(** X12. A 200 answer never carries anything but the model's output. In
    [server.mjs] its analysis is the value [JSON.parse] gave for the
    content of a completion the call resolved with; in [server.js] it is
    that value or, when the content did not parse, the made-up object
    around the same content. *)
Theorem ok_answer_carries_model_output {engine : Engine} (env : Env) (client : Client)
    (request : JsVal) (r : Response) :
  status r = 200%Z ->
  (outcome (Mjs.analyze env client request) = Normal r ->
   exists prompt completion parsed,
     validated request = true
     /\ composed request = Some prompt
     /\ client (mjs_params env prompt) = Resolved completion
     /\ JSON_parse (raw_of completion) = Some parsed
     /\ body r = success parsed)
  /\
  (outcome (Js.analyze env client request) = Normal r ->
   exists prompt completion,
     validated request = true
     /\ composed request = Some prompt
     /\ client (js_params env prompt) = Resolved completion
     /\ body r = success match JSON_parse (raw_of completion) with
                         | Some parsed => parsed
                         | None => js_fallback (raw_of completion)
                         end).
Proof.
  intros S.
  assert (Hm : forall e, outcome (Mjs.on_error e) <> Normal r).
  { intros e H. pose proof (mjs_on_error_cases e) as K.
    destruct (mjs_error_text e); [|destruct K; congruence].
    rewrite K in H. injection H as <-. discriminate. }
  assert (Hj : forall e, outcome (Js.on_error e) <> Normal r).
  { intros e H. destruct (nullish e) eqn:N.
    - rewrite (js_on_error_nullish _ N) in H. discriminate.
    - rewrite (js_on_error_defined _ N), outcome_after in H.
      injection H as <-. discriminate. }
  split; intros H.
  - destruct (validated request) eqn:V;
      [|rewrite (mjs_invalid _ _ _ V) in H; injection H as <-; discriminate].
    destruct (composed request) as [prompt|] eqn:C;
      [|rewrite (mjs_not_composed _ _ _ V C) in H; now apply Hm in H].
    rewrite (mjs_composed _ _ _ _ V C), outcome_after in H.
    fold (mjs_params env prompt) in H.
    destruct (client (mjs_params env prompt)) as [completion|reason] eqn:R;
      [|now apply Hm in H].
    destruct (nullish completion); [now apply Hm in H |].
    destruct (JSON_parse (raw_of completion)) as [parsed|] eqn:P;
      injection H as <-; [|discriminate].
    now exists prompt, completion, parsed.
  - destruct (validated request) eqn:V;
      [|rewrite (js_invalid _ _ _ V) in H; injection H as <-; discriminate].
    destruct (composed request) as [prompt|] eqn:C;
      [|rewrite (js_not_composed _ _ _ V C) in H; now apply Hj in H].
    rewrite (js_composed _ _ _ _ V C), outcome_after in H.
    fold (js_params env prompt) in H.
    destruct (client (js_params env prompt)) as [completion|reason] eqn:R;
      [|now apply Hj in H].
    destruct (nullish completion); [now apply Hj in H |].
    exists prompt, completion.
    destruct (JSON_parse (raw_of completion)); injection H as <-; now repeat split.
Qed.

Lemma ok_answer_carries_model_output_witness :
  exists prompt completion parsed,
    validated body0 = true
    /\ @composed Reference.engine body0 = Some prompt
    /\ resolves completion_low_risk (mjs_params env0 prompt) = Resolved completion
    /\ @JSON_parse Reference.engine (raw_of completion) = Some parsed
    /\ JObj [("success", JBool true);
             ("analysis", JObj [("summary", JStr "x"); ("riskLevel", JStr "low")])]
       = success parsed.
Proof.
  apply (proj1 (@ok_answer_carries_model_output Reference.engine env0
                  (resolves completion_low_risk) body0
                  (mkResponse 200
                     (JObj [("success", JBool true);
                            ("analysis", JObj [("summary", JStr "x");
                                               ("riskLevel", JStr "low")])]))
                  eq_refl)).
  reflexivity.
Defined.

(** X13. The two files send different calls for the same request: the
    temperature, the response format and the user message are the same,
    the system message differs, and so does the model unless [TEXT_MODEL]
    is set in the environment. *)
Theorem variants_send_different_calls {engine : Engine} (env : Env)
    (client_mjs client_js : Client) (body : JsVal) (prompt : string) :
  validated body = true ->
  composed body = Some prompt ->
  exists pm pj,
    calls (trace (Mjs.analyze env client_mjs body)) = [pm]
    /\ calls (trace (Js.analyze env client_js body)) = [pj]
    /\ temperature pm = temperature pj
    /\ response_format pm = response_format pj
    /\ nth_error (messages pm) 1 = Some (mkMessage "user" prompt)
    /\ nth_error (messages pj) 1 = Some (mkMessage "user" prompt)
    /\ nth_error (messages pm) 0 <> nth_error (messages pj) 0
    /\ (model pm = model pj <-> exists c m, env_TEXT_MODEL env = Some (String c m)).
Proof.
  assert (Differ : Mjs.systemPrompt <> Js.systemPrompt)
    by (apply String.eqb_neq; vm_compute; reflexivity).
  intros V C. exists (mjs_params env prompt), (js_params env prompt).
  rewrite mjs_calls, js_calls, V, C.
  split; [reflexivity |]. split; [reflexivity |]. split; [reflexivity |].
  split; [reflexivity |]. split; [reflexivity |]. split; [reflexivity |].
  split; [|split].
  - cbn [mjs_params js_params create_params messages nth_error].
    generalize Mjs.systemPrompt, Js.systemPrompt, Differ.
    intros s1 s2 D H. apply D. now injection H.
  - cbn [mjs_params js_params create_params model].
    unfold Mjs.TEXT_MODEL, Js.TEXT_MODEL, env_or.
    destruct (env_TEXT_MODEL env) as [[|c m]|]; try discriminate.
    intros _. now exists c, m.
  - intros (c & m & E). cbn [mjs_params js_params create_params model].
    unfold Mjs.TEXT_MODEL, Js.TEXT_MODEL. now rewrite E.
Qed.

Lemma variants_send_different_calls_witness :
  exists pm pj,
    calls (trace (@Mjs.analyze Reference.engine env0 (rejects rate_limited) body0)) = [pm]
    /\ calls (trace (@Js.analyze Reference.engine env0 (rejects rate_limited) body0)) = [pj]
    /\ model pm <> model pj.
Proof.
  destruct (@variants_send_different_calls Reference.engine env0
              (rejects rate_limited) (rejects rate_limited) body0
              (user_text "Radiology w/ Pre-Auth" default_persona default_goal
                 "Patient called twice about a pending MRI authorization.")
              eq_refl eq_refl)
    as (pm & pj & Hm & Hj & _ & _ & _ & _ & _ & Hmodel).
  exists pm, pj. repeat split; [exact Hm | exact Hj |].
  intros E. apply Hmodel in E. destruct E as (c & m & E). discriminate.
Defined.

Lemma ToString_primitive {engine : Engine} (v : JsVal) :
  is_primitive v = true -> exists s, ToString v = Some s.
Proof.
  destruct v as [| |[|]| | | |]; try discriminate; intros _; now eexists.
Qed.

Lemma is_primitive_js_or (v : JsVal) (s : string) :
  is_primitive v = true -> is_primitive (js_or v (JStr s)) = true.
Proof. unfold js_or. intros H. now destruct (truthy v). Qed.

(** X14. Validation looks at truthiness only, so fields need not be
    strings: a valid request whose four fields are primitives (strings,
    numbers, booleans, [null], or absent) always renders, each field in
    its string form, and is forwarded in exactly one call. *)
Theorem primitive_fields_forwarded {engine : Engine} (env : Env) (client : Client)
    (body : JsVal) :
  validated body = true ->
  (forall key, In key ["callType"; "persona"; "goal"; "notes"] ->
               is_primitive (request_field body key) = true) ->
  exists callType persona goal notes : string,
    ToString (request_field body "callType") = Some callType
    /\ ToString (js_or (request_field body "persona") (JStr default_persona))
       = Some persona
    /\ ToString (js_or (request_field body "goal") (JStr default_goal)) = Some goal
    /\ ToString (request_field body "notes") = Some notes
    /\ calls (trace (Mjs.analyze env client body)) =
       [mjs_params env (user_text callType persona goal notes)]
    /\ calls (trace (Js.analyze env client body)) =
       [js_params env (user_text callType persona goal notes)].
Proof.
  intros V P.
  destruct (ToString_primitive (request_field body "callType")) as [callType Ec];
    [apply P; simpl; tauto |].
  destruct (ToString_primitive
              (js_or (request_field body "persona") (JStr default_persona)))
    as [persona Ep]; [apply is_primitive_js_or, P; simpl; tauto |].
  destruct (ToString_primitive (js_or (request_field body "goal") (JStr default_goal)))
    as [goal Eg]; [apply is_primitive_js_or, P; simpl; tauto |].
  destruct (ToString_primitive (request_field body "notes")) as [notes En];
    [apply P; simpl; tauto |].
  exists callType, persona, goal, notes.
  assert (C : composed body = Some (user_text callType persona goal notes)).
  { unfold composed, userPrompt_parts. cbn [template].
    rewrite Ec, Ep, Eg, En. now rewrite append_empty_r. }
  rewrite mjs_calls, js_calls, V, C. now repeat split.
Qed.

Lemma primitive_fields_forwarded_witness :
  exists prompt,
    calls (trace (@Mjs.analyze Reference.engine env0 (resolves JNull) body_numeric)) =
    [mjs_params env0 prompt]
    /\ contains prompt "CALL TYPE: 42".
Proof.
  destruct (@primitive_fields_forwarded Reference.engine env0 (resolves JNull)
              body_numeric eq_refl)
    as (callType & persona & goal & notes & Ec & _ & _ & _ & Hm & _).
  - intros key [<- | [<- | [<- | [<- | []]]]]; reflexivity.
  - exists (user_text callType persona goal notes). split; [exact Hm |].
    injection Ec as <-. unfold user_text.
    exists nl. eexists. reflexivity.
Defined.

(** X15. Once the module has started (the client was built), a [GET] for
    the health path, in any letter case and with or without one trailing
    slash, is answered 200 with [{ "status": "ok" }] and no effect,
    whatever the environment holds and whatever the client would do. *)
Theorem health_ok_once_started {engine : Engine} (OpenAI : Constructor) (env : Env)
    (server : Request -> option (M Response)) (path : string) (body : JsVal) :
  route_matches "/health" path = true ->
  (Mjs.app OpenAI env = Normal server ->
   server (mkRequest "GET" path body) =
   Some (Normal (mkResponse 200 (JObj [("status", JStr "ok")])), []))
  /\
  (Js.app OpenAI env = Normal server ->
   server (mkRequest "GET" path body) =
   Some (Normal (mkResponse 200 (JObj [("status", JStr "ok")])), [])).
Proof.
  intros R. unfold Mjs.app, Js.app.
  destruct (OpenAI (env_OPENAI_API_KEY env)) as [client|error];
    split; intros H; try discriminate; injection H as <-.
  - unfold Mjs.routes. cbn [req_method req_path]. now rewrite R.
  - unfold Js.routes. cbn [req_method req_path]. now rewrite R.
Qed.

Lemma health_ok_once_started_witness :
  exists server,
    @Mjs.app Reference.engine (OpenAI_sdk JNull (rejects JUndefined))
      (mkEnv (Some "sk-test") None None) = Normal server
    /\ server (mkRequest "GET" "/Health/" JUndefined) =
       Some (Normal (mkResponse 200 (JObj [("status", JStr "ok")])), []).
Proof.
  eexists. split; [reflexivity |].
  apply (proj1 (@health_ok_once_started Reference.engine
                  (OpenAI_sdk JNull (rejects JUndefined))
                  (mkEnv (Some "sk-test") None None) _ "/Health/" JUndefined
                  eq_refl)).
  reflexivity.
Defined.
